(** * kvm-vm-tune: the disk-resize pipeline and its guards

    A shallow embedding of [main.go].  The file under [src/] holds two
    revisions of the program one after the other:

    - lines 1-293, where every external command is started through
      [os/exec] ([Module Rev1] below);
    - lines 295-455, where the same dispatch shell calls the
      [libvirtwrap-go] packages [vm], [virsh] and [disk]
      ([Module Rev2] below).

    External commands are answered by a host (class [Host]); the library
    calls of the second revision by class [Libvirtwrap].  A run threads a
    process state ([Proc]) that records, in order, every command started,
    its answer and the host right after it, together with what was written
    to standard output and standard error and what is left on standard
    input.  [os.Exit] is the [Exited] outcome of the monad [M]. *)

From Stdlib Require Import ZArith Ascii String DecimalString.
From stdpp Require Import base tactics option list strings gmap.

Local Open Scope string_scope.
Local Open Scope list_scope.
Local Open Scope Z_scope.

(** ** Go library functions used by the program *)

(** [strings.TrimSpace] drops, from both ends, the runes for which
    [unicode.IsSpace] holds.  A text is its bytes; a rune is read off
    them as UTF-8.  The six ASCII white space bytes are tab, line feed,
    vertical tab, form feed, carriage return and space. *)
Definition asciiSpace (c : ascii) : bool :=
  let n := nat_of_ascii c in
  bool_decide (n = 9 ∨ n = 10 ∨ n = 11 ∨ n = 12 ∨ n = 13 ∨ n = 32)%nat.

(** The white space runes beyond ASCII ([unicode.IsSpace]) in UTF-8:
    U+0085 and U+00A0 take two bytes; U+1680, U+2000 to U+200A, U+2028,
    U+2029, U+202F, U+205F and U+3000 take three. *)
Definition isSpace2 (a b : ascii) : bool :=
  let a := nat_of_ascii a in
  let b := nat_of_ascii b in
  bool_decide (a = 194 ∧ (b = 133 ∨ b = 160))%nat.

Definition isSpace3 (a b c : ascii) : bool :=
  let a := nat_of_ascii a in
  let b := nat_of_ascii b in
  let c := nat_of_ascii c in
  bool_decide
    ((a = 225 ∧ b = 154 ∧ c = 128)
     ∨ (a = 226 ∧ b = 128
        ∧ (128 ≤ c ≤ 138 ∨ c = 168 ∨ c = 169 ∨ c = 175))
     ∨ (a = 226 ∧ b = 129 ∧ c = 159)
     ∨ (a = 227 ∧ b = 128 ∧ c = 128))%nat.

(** The width in bytes of the white space rune a text starts with, 0
    when it starts with none (an ill-formed byte decodes to U+FFFD, which
    is no white space). *)
Definition spaceWidth (s : string) : nat :=
  match s with
  | EmptyString => 0
  | String a s1 =>
      if asciiSpace a then 1
      else match s1 with
           | EmptyString => 0
           | String b s2 =>
               if isSpace2 a b then 2
               else match s2 with
                    | EmptyString => 0
                    | String c _ => if isSpace3 a b c then 3 else 0
                    end
           end
  end%nat.

(** The same for the rune a text ends with, read off the text with its
    bytes in reverse order. *)
Definition spaceWidthBack (r : string) : nat :=
  match r with
  | EmptyString => 0
  | String c r1 =>
      if asciiSpace c then 1
      else match r1 with
           | EmptyString => 0
           | String b r2 =>
               if isSpace2 b c then 2
               else match r2 with
                    | EmptyString => 0
                    | String a _ => if isSpace3 a b c then 3 else 0
                    end
           end
  end%nat.

(** Drop white space runes from the front, [skip] counting the bytes of
    a rune still to be dropped. *)
Fixpoint dropSpaces (width : string → nat) (skip : nat) (s : string)
  : string :=
  match s with
  | EmptyString => EmptyString
  | String c s' =>
      match skip with
      | S k => dropSpaces width k s'
      | O =>
          match width s with
          | O => s
          | S k => dropSpaces width k s'
          end
      end
  end.

Definition reverse (s : string) : string :=
  string_of_list_ascii (rev (list_ascii_of_string s)).

(** [strings.TrimLeftFunc s unicode.IsSpace]: decoding from the front,
    a rune is white space exactly when the text starts with one of the
    encodings above. *)
Definition trimLeft (s : string) : string := dropSpaces spaceWidth 0 s.

(** [strings.TrimRightFunc s unicode.IsSpace]: [utf8.DecodeLastRune]
    walks back over the continuation bytes to the byte that starts the
    last rune, so the last rune is white space exactly when the text ends
    with one of the encodings above. *)
Definition trimRight (s : string) : string :=
  reverse (dropSpaces spaceWidthBack 0 (reverse s)).

Definition TrimSpace (s : string) : string := trimRight (trimLeft s).

(** [strings.ToLower] on the bytes of ASCII letters.  No rune other
    than the ASCII capitals lowers to one of the letters y, e and s, so
    the result is one of the words y and yes here exactly when it is in
    Go. *)
Definition lowerByte (c : ascii) : ascii :=
  let n := nat_of_ascii c in
  if bool_decide (65 ≤ n ≤ 90)%nat then ascii_of_nat (n + 32) else c.

Fixpoint ToLower (s : string) : string :=
  match s with
  | EmptyString => EmptyString
  | String c s' => String (lowerByte c) (ToLower s')
  end.

(** [strings.Split s sep] for a non-empty separator: [skip] counts the
    bytes of a separator still to be dropped, [cur] is the piece being
    collected. *)
Fixpoint splitGo (sep : string) (skip : nat) (cur : string) (s : string)
  : list string :=
  match s with
  | EmptyString => [cur]
  | String c s' =>
      match skip with
      | S k => splitGo sep k cur s'
      | O =>
          if String.prefix sep s
          then cur :: splitGo sep (String.length sep - 1) EmptyString s'
          else splitGo sep O (cur +:+ String c EmptyString) s'
      end
  end.

Fixpoint explode (s : string) : list string :=
  match s with
  | EmptyString => []
  | String c s' => String c EmptyString :: explode s'
  end.

Definition Split (s sep : string) : list string :=
  if bool_decide (sep = EmptyString) then explode s
  else splitGo sep O EmptyString s.

(** [strings.Join]. *)
Fixpoint Join (elems : list string) (sep : string) : string :=
  match elems with
  | [] => EmptyString
  | [x] => x
  | x :: rest => x +:+ sep +:+ Join rest sep
  end.

(** [bufio.Reader.ReadString]: the bytes up to and including the first
    [delim] (everything when there is none), and what is left. *)
Fixpoint ReadString (delim : ascii) (s : string) : string * string :=
  match s with
  | EmptyString => (EmptyString, EmptyString)
  | String c s' =>
      if bool_decide (c = delim) then (String c EmptyString, s')
      else let '(l, r) := ReadString delim s' in (String c l, r)
  end.

(** The verb [%d] of [fmt] on an [int]. *)
Definition fmt_d (n : Z) : string := NilZero.string_of_int (Z.to_int n).

Definition LF : string := String (ascii_of_nat 10) EmptyString.

(** ** Data of the program *)

Record DomainDisk := {
  Device : string;
  Source_File : string;
  Target_Dev : string
}.

Record Domain := { Devices_Disks : list DomainDisk }.

(** The package-level flag variables of the [disk] subcommand. *)
Module Flag.
Record t := {
  imagePath : string;
  device : string;
  partition : Z;
  size : string;
  dryRun : bool
}.
End Flag.

(** A Go result pair [(T, error)]. *)
Inductive result (A : Type) : Type :=
  | Ok (a : A)
  | Err (e : string).
Arguments Ok {A} a.
Arguments Err {A} e.

(** ** The process runner *)

(** What a finished [exec.Cmd] hands back: the error of [Run] ([None] for
    nil; [Some e] holds [err.Error()]), the bytes of standard output
    ([Output]) and of standard output and error together
    ([CombinedOutput]). *)
Record CmdResult := {
  cr_err : option string;
  cr_stdout : string;
  cr_combined : string
}.

(** The host on which the program runs: how it answers a command line,
    the path [exec.Command] resolves [sudo] to (shown by [Cmd.String]), and
    [xml.Unmarshal] into [Domain]. *)
Class Host (World : Type) := {
  exec : list string → World → CmdResult * World;
  sudoPath : string;
  xmlUnmarshal : string → result Domain
}.

Record Event (World : Type) := {
  ev_argv : list string;
  ev_res : CmdResult;
  ev_after : World
}.
Arguments ev_argv {World} _.
Arguments ev_res {World} _.
Arguments ev_after {World} _.

Record Proc (World Ev : Type) := {
  p_world : World;
  p_trace : list Ev;
  p_stdout : string;
  p_stderr : string;
  p_stdin : string
}.
Arguments p_world {World Ev} _.
Arguments p_trace {World Ev} _.
Arguments p_stdout {World Ev} _.
Arguments p_stderr {World Ev} _.
Arguments p_stdin {World Ev} _.

(** A fresh process on host [w] with [input] waiting on standard input. *)
Definition boot {World Ev : Type} (w : World) (input : string) : Proc World Ev :=
  {| p_world := w; p_trace := []; p_stdout := EmptyString;
     p_stderr := EmptyString; p_stdin := input |}.

(** ** The monad of a running process *)

Inductive Res (A : Type) : Type :=
  | Done (a : A)
  | Exited (code : Z).
Arguments Done {A} a.
Arguments Exited {A} code.

Definition M (World Ev A : Type) : Type :=
  Proc World Ev → Res A * Proc World Ev.

Definition ret {World Ev A} (a : A) : M World Ev A := fun p => (Done a, p).

Definition bind {World Ev A B} (m : M World Ev A) (k : A → M World Ev B)
  : M World Ev B :=
  fun p =>
    match m p with
    | (Done a, p') => k a p'
    | (Exited c, p') => (Exited c, p')
    end.

Declare Scope proc_scope.
Delimit Scope proc_scope with proc.
Notation "'let*' x := m 'in' k" := (bind m (fun x => k))
  (at level 10, x name, m at level 100, k at level 200) : proc_scope.
Notation "m ;; k" := (bind m (fun _ => k))
  (at level 100, k at level 200, right associativity) : proc_scope.
Local Open Scope proc_scope.

(** [os.Exit]. *)
Definition Exit {World Ev A} (code : Z) : M World Ev A :=
  fun p => (Exited code, p).

(** [fmt.Print*] on standard output, [fmt.Fprintf(os.Stderr, ...)]. *)
Definition Print {World Ev} (text : string) : M World Ev unit :=
  fun p => (Done tt,
            {| p_world := p_world p; p_trace := p_trace p;
               p_stdout := p_stdout p +:+ text;
               p_stderr := p_stderr p; p_stdin := p_stdin p |}).

Definition Eprint {World Ev} (text : string) : M World Ev unit :=
  fun p => (Done tt,
            {| p_world := p_world p; p_trace := p_trace p;
               p_stdout := p_stdout p;
               p_stderr := p_stderr p +:+ text; p_stdin := p_stdin p |}).

(** [bufio.NewReader(os.Stdin).ReadString('\n')], its error dropped. *)
Definition readLine {World Ev} : M World Ev string :=
  fun p =>
    let '(l, rest) := ReadString (ascii_of_nat 10) (p_stdin p) in
    (Done l,
     {| p_world := p_world p; p_trace := p_trace p;
        p_stdout := p_stdout p; p_stderr := p_stderr p; p_stdin := rest |}).

(** Start a command and wait for it: the trace grows by one event. *)
Definition run {World} `{Host World} (argv : list string)
  : M World (Event World) CmdResult :=
  fun p =>
    let '(r, w') := exec argv (p_world p) in
    (Done r,
     {| p_world := w';
        p_trace := p_trace p ++ [{| ev_argv := argv; ev_res := r; ev_after := w' |}];
        p_stdout := p_stdout p; p_stderr := p_stderr p; p_stdin := p_stdin p |}).

(** [Cmd.String] of a command made by [exec.Command("sudo", ...)]. *)
Definition cmdString {World} `{Host World} (argv : list string) : string :=
  Join (sudoPath :: tail argv) " ".

(** [strconv.Atoi] of the Go library: the integer a text stands for, or
    the error it is refused with. *)
Class Strconv := {
  Atoi : string → result Z
}.

(** ** First revision: the program over [os/exec] (lines 1-293) *)

Module Rev1.

Definition dumpxmlCmd (vmName : string) : list string :=
  ["sudo"; "virsh"; "dumpxml"; vmName].

Definition listCmd : list string :=
  ["sudo"; "virsh"; "list"; "--name"; "--state-running"].

Definition createCmd (newImagePath newSize : string) : list string :=
  ["sudo"; "qemu-img"; "create"; "-f"; "qcow2"; "-o";
   "preallocation=metadata"; newImagePath; newSize].

Definition resizeCmd (device : string) (partition : Z)
    (imagePath newImagePath : string) : list string :=
  ["sudo"; "virt-resize"; "--expand";
   "/dev/" +:+ device +:+ fmt_d partition; imagePath; newImagePath].

Definition mvCmd (newImagePath imagePath : string) : list string :=
  ["sudo"; "mv"; newImagePath; imagePath].

Definition rmCmd (newImagePath : string) : list string :=
  ["sudo"; "rm"; newImagePath].

(** Line 200: the names the query answered with. *)
Definition runningVMs (output : string) : list string :=
  Split (TrimSpace output) LF.

(** Lines 201-206: the loop over [runningVMs]. *)
Fixpoint notListed (vmName : string) (vms : list string) : bool :=
  match vms with
  | [] => true
  | vm :: rest => if bool_decide (vm = vmName) then false else notListed vmName rest
  end.

(** Line 161: the answers that let the pipeline start. *)
Definition declined (response : string) : bool :=
  bool_decide (response ≠ "y") && bool_decide (response ≠ "yes").

Section Program.
Context {World : Type} `{Host World}.

Local Abbreviation Prog := (M World (Event World)).

Definition getVMDisks (vmName : string) : Prog (result (list DomainDisk)) :=
  let* r := run (dumpxmlCmd vmName) in
  match cr_err r with
  | Some err => ret (Err ("failed to execute virsh dumpxml: " +:+ err))
  | None =>
      match xmlUnmarshal (cr_stdout r) with
      | Err err => ret (Err ("failed to parse XML: " +:+ err))
      | Ok domain =>
          if bool_decide (length (Devices_Disks domain) = 0%nat)
          then ret (Err ("no disks found for VM '" +:+ vmName +:+ "'"))
          else ret (Ok (Devices_Disks domain))
      end
  end.

Definition isVMStopped (vmName : string) : Prog bool :=
  let* r := run listCmd in
  match cr_err r with
  | Some err =>
      Print ("Failed to get list of running VMs: " +:+ err +:+ LF) ;;
      ret false
  | None => ret (notListed vmName (runningVMs (cr_stdout r)))
  end.

Definition resizeAndExpandDisk (imagePath device : string) (partition : Z)
    (newSize : string) : Prog (option string) :=
  let newImagePath := imagePath +:+ ".new" in
  Print ("Creating new image..." +:+ LF) ;;
  Print ("Executing command: "
         +:+ cmdString (createCmd newImagePath newSize) +:+ LF) ;;
  let* c := run (createCmd newImagePath newSize) in
  match cr_err c with
  | Some err =>
      ret (Some ("failed to create new image: " +:+ err
                 +:+ ", output: " +:+ cr_combined c))
  | None =>
      Print ("Resizing disk..." +:+ LF) ;;
      Print ("Executing command: "
             +:+ cmdString (resizeCmd device partition imagePath newImagePath)
             +:+ LF) ;;
      let* r := run (resizeCmd device partition imagePath newImagePath) in
      match cr_err r with
      | Some err =>
          let* d := run (rmCmd newImagePath) in
          match cr_err d with
          | Some rmErr =>
              ret (Some ("virt-resize failed: " +:+ err +:+ ", output: "
                         +:+ cr_combined r
                         +:+ ". Additionally, failed to remove new image: "
                         +:+ rmErr +:+ ", output: " +:+ cr_combined d))
          | None =>
              ret (Some ("virt-resize failed: " +:+ err +:+ ", output: "
                         +:+ cr_combined r +:+ ". New image was removed."))
          end
      | None =>
          Print ("virt-resize output:" +:+ LF +:+ cr_combined r +:+ LF) ;;
          Print ("Replacing original image with resized image..." +:+ LF) ;;
          Print ("Executing command: "
                 +:+ cmdString (mvCmd newImagePath imagePath) +:+ LF) ;;
          let* m := run (mvCmd newImagePath imagePath) in
          match cr_err m with
          | Some err =>
              let* d := run (rmCmd newImagePath) in
              match cr_err d with
              | Some rmErr =>
                  ret (Some ("failed to replace original image: " +:+ err
                             +:+ ". Additionally, failed to remove new image: "
                             +:+ rmErr +:+ ", output: " +:+ cr_combined d))
              | None =>
                  ret (Some ("failed to replace original image: " +:+ err
                             +:+ ". New image was removed."))
              end
          | None =>
              Print ("Disk expansion completed." +:+ LF) ;;
              ret None
          end
      end
  end.

Definition changeCPUCount (vmName : string) (cpuCount : Z)
  : Prog (option string) :=
  let* cmdMax :=
    run ["sudo"; "virsh"; "setvcpus"; vmName; fmt_d cpuCount;
         "--config"; "--maximum"] in
  match cr_err cmdMax with
  | Some err => ret (Some ("failed to set maximum CPU count: " +:+ err))
  | None =>
      let* cmdCurrent :=
        run ["sudo"; "virsh"; "setvcpus"; vmName; fmt_d cpuCount; "--config"] in
      match cr_err cmdCurrent with
      | Some err => ret (Some ("failed to set current CPU count: " +:+ err))
      | None => ret None
      end
  end.

Definition changeMemorySize (vmName memorySize : string)
  : Prog (option string) :=
  let* cmd := run ["sudo"; "virsh"; "setmaxmem"; vmName; memorySize; "--config"] in
  match cr_err cmd with
  | Some err =>
      ret (Some ("failed to set maximum memory: " +:+ err
                 +:+ ", output: " +:+ cr_combined cmd))
  | None =>
      let* cmd := run ["sudo"; "virsh"; "setmem"; vmName; memorySize; "--config"] in
      match cr_err cmd with
      | Some err =>
          ret (Some ("failed to set current memory: " +:+ err
                     +:+ ", output: " +:+ cr_combined cmd))
      | None => ret None
      end
  end.

Definition printCommand (name : string) (args : list string) : Prog unit :=
  Print ("Command: sudo " +:+ name +:+ " " +:+ Join args " " +:+ LF).

Definition printResizeCommand (imagePath device : string) (partition : Z)
    (newSize : string) : Prog unit :=
  let newImagePath := imagePath +:+ ".new" in
  Print ("Command: sudo qemu-img create -f qcow2 -o preallocation=metadata "
         +:+ newImagePath +:+ " " +:+ newSize +:+ LF) ;;
  Print ("Command: sudo virt-resize --expand /dev/" +:+ device
         +:+ fmt_d partition +:+ " " +:+ imagePath +:+ " " +:+ newImagePath
         +:+ LF) ;;
  Print ("Command: sudo mv " +:+ newImagePath +:+ " " +:+ imagePath +:+ LF).

(** [args] holds exactly the VM name ([cobra.ExactArgs(1)]). *)
Definition runDiskCommand (fl : Flag.t) (vmName : string) : Prog unit :=
  let* imagePath :=
    (if bool_decide (Flag.imagePath fl = "") then
       let* got := getVMDisks vmName in
       match got with
       | Err err =>
           Eprint ("Failed to get disk information for VM '" +:+ vmName
                   +:+ "': " +:+ err +:+ LF) ;;
           Exit 1
       | Ok disks =>
           match disks with
           | [] => Eprint ("No disks found for VM '" +:+ vmName +:+ "'" +:+ LF) ;;
                   Exit 1
           | d :: _ => ret (Source_File d)
           end
       end
     else ret (Flag.imagePath fl)) in
  Print ("Selected disk: " +:+ imagePath +:+ " (device: " +:+ Flag.device fl
         +:+ ")" +:+ LF) ;;
  let* stopped := isVMStopped vmName in
  (if negb stopped then
     Eprint ("VM '" +:+ vmName
             +:+ "' is currently running. Please stop the VM before making changes."
             +:+ LF) ;;
     Exit 1
   else ret tt) ;;
  (if bool_decide (Flag.size fl = "") then
     Eprint ("Please specify the new size using the --size option" +:+ LF) ;;
     Exit 1
   else ret tt) ;;
  if Flag.dryRun fl then
    printResizeCommand imagePath (Flag.device fl) (Flag.partition fl) (Flag.size fl)
  else
    Print ("WARNING: This operation will modify the disk image." +:+ LF) ;;
    Print "Do you want to continue? (y/N): " ;;
    let* response := readLine in
    let response := ToLower (TrimSpace response) in
    (if declined response then
       Print ("Operation cancelled." +:+ LF) ;;
       Exit 0
     else ret tt) ;;
    let* err := resizeAndExpandDisk imagePath (Flag.device fl)
                  (Flag.partition fl) (Flag.size fl) in
    match err with
    | Some err =>
        Eprint ("Failed to resize and expand disk: " +:+ err +:+ LF) ;;
        Exit 1
    | None => Print ("Disk expansion completed successfully." +:+ LF)
    end.

Context `{Strconv}.

(** [args] holds the count and the VM name ([cobra.ExactArgs(2)]);
    [dryRun] is the package-level variable. *)
Definition runCPUCommand (dryRun : bool) (count vmName : string) : Prog unit :=
  let* cpuCount :=
    match Atoi count with
    | Err err => Eprint ("Invalid CPU count: " +:+ err +:+ LF) ;; Exit 1
    | Ok n => ret n
    end in
  if dryRun then
    printCommand "virsh"
      ["setvcpus"; vmName; fmt_d cpuCount; "--config"; "--maximum"] ;;
    printCommand "virsh" ["setvcpus"; vmName; fmt_d cpuCount; "--config"]
  else
    let* err := changeCPUCount vmName cpuCount in
    match err with
    | Some err =>
        Eprint ("Failed to change CPU count: " +:+ err +:+ LF) ;;
        Exit 1
    | None =>
        Print ("CPU count changed to " +:+ fmt_d cpuCount +:+ " for VM '"
               +:+ vmName +:+ "'." +:+ LF)
    end.

Definition runMemoryCommand (dryRun : bool) (memorySize vmName : string)
  : Prog unit :=
  if dryRun then
    printCommand "virsh" ["setmaxmem"; vmName; memorySize; "--config"] ;;
    printCommand "virsh" ["setmem"; vmName; memorySize; "--config"]
  else
    let* err := changeMemorySize vmName memorySize in
    match err with
    | Some err =>
        Eprint ("Failed to change memory size: " +:+ err +:+ LF) ;;
        Exit 1
    | None =>
        Print ("Memory size changed to " +:+ memorySize +:+ " for VM '"
               +:+ vmName +:+ "'." +:+ LF)
    end.

End Program.

End Rev1.

(** ** Second revision: the program over libvirtwrap-go (lines 295-455) *)

Module Rev2.

(** The calls into [libvirtwrap-go] made by [runDiskCommand]. *)
Inductive Call : Type :=
  | AskDiskPaths (vmName : string)
  | AskRunning (vmName : string)
  | AskOwner (vmName imagePath : string)
  | DoResize (imagePath device : string) (partition : Z) (size : string).

Inductive Answer : Type :=
  | Paths (r : result (list string))
  | Truth (r : result bool)
  | Failure (r : option string).

(** The packages [virsh], [vm] and [disk] of libvirtwrap-go: they are not
    part of this program, so a host answers each call.  [vm.New] only
    wraps the name. *)
Class Libvirtwrap (World : Type) := {
  virsh_GetVMDiskPaths : string → World → result (list string) * World;
  vm_IsRunning : string → World → result bool * World;
  vm_VerifyDiskBelongsToVM : string → string → World → result bool * World;
  disk_ResizeAndExpandDisk :
    string → string → Z → string → World → option string * World
}.

Record LibEvent (World : Type) := {
  le_call : Call;
  le_answer : Answer;
  le_after : World
}.
Arguments le_call {World} _.
Arguments le_answer {World} _.
Arguments le_after {World} _.

Section Program.
Context {World : Type} `{Libvirtwrap World}.

Local Abbreviation Prog := (M World (LibEvent World)).

Definition called {A : Type} (c : Call) (wrap : A → Answer)
    (f : World → A * World) : Prog A :=
  fun p =>
    let '(a, w') := f (p_world p) in
    (Done a,
     {| p_world := w';
        p_trace := p_trace p
                   ++ [{| le_call := c; le_answer := wrap a; le_after := w' |}];
        p_stdout := p_stdout p; p_stderr := p_stderr p;
        p_stdin := p_stdin p |}).

Definition GetVMDiskPaths (vmName : string) : Prog (result (list string)) :=
  called (AskDiskPaths vmName) Paths (virsh_GetVMDiskPaths vmName).

Definition IsRunning (myVM : string) : Prog (result bool) :=
  called (AskRunning myVM) Truth (vm_IsRunning myVM).

Definition VerifyDiskBelongsToVM (myVM imagePath : string)
  : Prog (result bool) :=
  called (AskOwner myVM imagePath) Truth
    (vm_VerifyDiskBelongsToVM myVM imagePath).

Definition ResizeAndExpandDisk (imagePath device : string) (partition : Z)
    (size : string) : Prog (option string) :=
  called (DoResize imagePath device partition size) Failure
    (disk_ResizeAndExpandDisk imagePath device partition size).

Definition runDiskCommand (fl : Flag.t) (vmName : string) : Prog unit :=
  let myVM := vmName in
  let* imagePath :=
    (if bool_decide (Flag.imagePath fl = "") then
       let* got := GetVMDiskPaths vmName in
       match got with
       | Err err =>
           Eprint ("Failed to get disk information for VM '" +:+ vmName
                   +:+ "': " +:+ err +:+ LF) ;;
           Exit 1
       | Ok disks =>
           match disks with
           | [] => Eprint ("No disks found for VM '" +:+ vmName +:+ "'" +:+ LF) ;;
                   Exit 1
           | d :: _ => ret d
           end
       end
     else ret (Flag.imagePath fl)) in
  Print ("Selected disk: " +:+ imagePath +:+ " (device: " +:+ Flag.device fl
         +:+ ")" +:+ LF) ;;
  let* isRunning := IsRunning myVM in
  let* isRunning :=
    match isRunning with
    | Err err =>
        Eprint ("Failed to check VM status: " +:+ err +:+ LF) ;;
        Exit 1
    | Ok b => ret b
    end in
  (if isRunning : bool then
     Eprint ("VM '" +:+ vmName
             +:+ "' is currently running. Please stop the VM before making changes."
             +:+ LF) ;;
     Exit 1
   else ret tt) ;;
  (if bool_decide (Flag.size fl = "") then
     Eprint ("Please specify the new size using the --size option" +:+ LF) ;;
     Exit 1
   else ret tt) ;;
  if Flag.dryRun fl then
    Print ("Would resize disk " +:+ imagePath +:+ " to " +:+ Flag.size fl
           +:+ " for VM '" +:+ vmName +:+ "'" +:+ LF)
  else
    let* belongsToVM := VerifyDiskBelongsToVM myVM imagePath in
    let* belongsToVM :=
      match belongsToVM with
      | Err err =>
          Eprint ("Failed to verify disk ownership: " +:+ err +:+ LF) ;;
          Exit 1
      | Ok b => ret b
      end in
    (if negb belongsToVM then
       Eprint ("The specified disk does not belong to VM '" +:+ vmName
               +:+ "'" +:+ LF) ;;
       Exit 1
     else ret tt) ;;
    let* err := ResizeAndExpandDisk imagePath (Flag.device fl)
                  (Flag.partition fl) (Flag.size fl) in
    match err with
    | Some err =>
        Eprint ("Failed to resize and expand disk: " +:+ err +:+ LF) ;;
        Exit 1
    | None =>
        Print ("Disk expansion completed successfully for VM '" +:+ vmName
               +:+ "'." +:+ LF)
    end.

End Program.

(** The calls of the cpu and memory commands into package [vm]. *)
Inductive Change : Type :=
  | SetCPUCount (vmName : string) (cpuCount : Z)
  | SetMemorySize (vmName memorySize : string).

Class Mutator (World : Type) := {
  vm_SetCPUCount : string → Z → World → option string * World;
  vm_SetMemorySize : string → string → World → option string * World
}.

Record ChangeEvent (World : Type) := {
  ce_call : Change;
  ce_answer : option string;
  ce_after : World
}.
Arguments ce_call {World} _.
Arguments ce_answer {World} _.
Arguments ce_after {World} _.

Section Changes.
Context {World : Type} `{Mutator World} `{Strconv}.

Local Abbreviation Prog := (M World (ChangeEvent World)).

Definition changed (c : Change) (f : World → option string * World)
  : Prog (option string) :=
  fun p =>
    let '(a, w') := f (p_world p) in
    (Done a,
     {| p_world := w';
        p_trace := p_trace p
                   ++ [{| ce_call := c; ce_answer := a; ce_after := w' |}];
        p_stdout := p_stdout p; p_stderr := p_stderr p;
        p_stdin := p_stdin p |}).

Definition runCPUCommand (dryRun : bool) (count vmName : string) : Prog unit :=
  let* cpuCount :=
    match Atoi count with
    | Err err => Eprint ("Invalid CPU count: " +:+ err +:+ LF) ;; Exit 1
    | Ok n => ret n
    end in
  let myVM := vmName in
  if dryRun then
    Print ("Would set CPU count to " +:+ fmt_d cpuCount +:+ " for VM '"
           +:+ vmName +:+ "'" +:+ LF)
  else
    let* err := changed (SetCPUCount myVM cpuCount)
                  (vm_SetCPUCount myVM cpuCount) in
    match err with
    | Some err =>
        Eprint ("Failed to change CPU count: " +:+ err +:+ LF) ;;
        Exit 1
    | None =>
        Print ("CPU count changed to " +:+ fmt_d cpuCount +:+ " for VM '"
               +:+ vmName +:+ "'." +:+ LF)
    end.

Definition runMemoryCommand (dryRun : bool) (memorySize vmName : string)
  : Prog unit :=
  let myVM := vmName in
  if dryRun then
    Print ("Would set memory size to " +:+ memorySize +:+ " for VM '"
           +:+ vmName +:+ "'" +:+ LF)
  else
    let* err := changed (SetMemorySize myVM memorySize)
                  (vm_SetMemorySize myVM memorySize) in
    match err with
    | Some err =>
        Eprint ("Failed to change memory size: " +:+ err +:+ LF) ;;
        Exit 1
    | None =>
        Print ("Memory size changed to " +:+ memorySize +:+ " for VM '"
               +:+ vmName +:+ "'." +:+ LF)
    end.

End Changes.

End Rev2.

(** ** What the pipeline's tools promise *)

(** The image files of a host: what is stored under a path, if anything. *)
Class Images (World : Type) := {
  contents : World → string → option string
}.

(** The contract of the external tools the pipeline relies on:
    [qemu-img create], [virt-resize] and [rm] leave every path other than
    the one they are given to write or delete as it was, whether they
    succeed or fail; a successful [mv a b] leaves under [b] what was under
    [a] and nothing under [a]. *)
Record ToolContract (World : Type) `{Host World} `{Images World} : Prop := {
  create_frame : ∀ p sz w q,
    q ≠ p → contents (exec (Rev1.createCmd p sz) w).2 q = contents w q;
  resize_frame : ∀ dev part src dst w q,
    q ≠ dst →
    contents (exec (Rev1.resizeCmd dev part src dst) w).2 q = contents w q;
  rm_frame : ∀ p w q,
    q ≠ p → contents (exec (Rev1.rmCmd p) w).2 q = contents w q;
  mv_moves : ∀ a b w,
    a ≠ b →
    cr_err (exec (Rev1.mvCmd a b) w).1 = None →
    contents (exec (Rev1.mvCmd a b) w).2 b = contents w a
    ∧ contents (exec (Rev1.mvCmd a b) w).2 a = None
}.

(** What [virsh list --name] prints for the given names: one name per
    line, then an empty line. *)
Definition virshNames (names : list string) : string :=
  foldr (λ n acc, n +:+ LF +:+ acc) LF names.

(** ** A simulated host for the first revision

    Image files in a finite map, the names of the running VMs, the disk
    files of the VM asked about, and the command lines set to fail. *)

Module Sim.

Record t := {
  fs : gmap string string;
  running : list string;
  disks : list string;
  failing : list (list string)
}.

Definition with_fs (w : t) (fs' : gmap string string) : t :=
  {| fs := fs'; running := running w; disks := disks w; failing := failing w |}.

Definition failed : CmdResult :=
  {| cr_err := Some "exit status 1"; cr_stdout := "";
     cr_combined := "simulated failure" |}.

Definition fine (out : string) : CmdResult :=
  {| cr_err := None; cr_stdout := out; cr_combined := out |}.

(** The tool a command line starts: the word after [sudo], or the
    subcommand when that word is [virsh]. *)
Definition toolOf (argv : list string) : string :=
  match argv with
  | _ :: tool :: sub :: _ => if bool_decide (tool = "virsh") then sub else tool
  | _ => ""
  end.

Definition answer (argv : list string) (w : t) : CmdResult * t :=
  if bool_decide (argv ∈ failing w) then (failed, w)
  else if bool_decide (toolOf argv = "rm") then
    match argv with
    | [_; _; a] =>
        match fs w !! a with
        | Some _ => (fine "", with_fs w (delete a (fs w)))
        | None => (failed, w)
        end
    | _ => (failed, w)
    end
  else if bool_decide (toolOf argv = "mv") then
    match argv with
    | [_; _; a; b] =>
        match fs w !! a with
        | Some c => (fine "", with_fs w (<[b:=c]> (delete a (fs w))))
        | None => (failed, w)
        end
    | _ => (failed, w)
    end
  else if bool_decide (toolOf argv = "virt-resize") then
    match argv with
    | [_; _; _; dev; src; dst] =>
        match fs w !! src, fs w !! dst with
        | Some c, Some d =>
            (fine ("Resize operation completed with no errors." +:+ LF),
             with_fs w (<[dst := "expanded " +:+ dev +:+ " of (" +:+ c
                                 +:+ ") into (" +:+ d +:+ ")"]> (fs w)))
        | _, _ => (failed, w)
        end
    | _ => (failed, w)
    end
  else if bool_decide (toolOf argv = "qemu-img") then
    match argv with
    | [_; _; _; _; _; _; _; p; sz] =>
        (fine ("Formatting '" +:+ p +:+ "'" +:+ LF),
         with_fs w (<[p := "empty qcow2 " +:+ sz]> (fs w)))
    | _ => (failed, w)
    end
  else if bool_decide (toolOf argv = "list") then
    (fine (virshNames (running w)), w)
  else if bool_decide (toolOf argv = "dumpxml") then
    (fine (Join (disks w) LF), w)
  else (fine "", w).

(** The simulated [dumpxml] answer lists one disk file per line. *)
Definition unmarshal (out : string) : result Domain :=
  Ok {| Devices_Disks :=
          map (λ f, {| Device := "disk"; Source_File := f; Target_Dev := "vda" |})
              (filter (λ l, l ≠ "") (Split out LF)) |}.

#[global] Instance host : Host t :=
  {| exec := answer; sudoPath := "/usr/bin/sudo"; xmlUnmarshal := unmarshal |}.

#[global] Instance images : Images t := {| contents := λ w p, fs w !! p |}.

(** A stopped VM [vm1] with one image. *)
Definition quiet : t :=
  {| fs := {[ "/data/vm1.img" := "vm1 root disk" ]};
     running := ["web"; "db"];
     disks := ["/data/vm1.img"];
     failing := [] |}.

Definition tripping (w : t) (cmds : list (list string)) : t :=
  {| fs := fs w; running := running w; disks := disks w; failing := cmds |}.

Definition argvs (p : Proc t (Event t)) : list (list string) :=
  map ev_argv (p_trace p).

End Sim.

(** ** A simulated libvirtwrap-go for the second revision *)

Module SimLib.

Record t := {
  vmRunning : bool;
  owned : list string;
  resized : list string
}.

#[global] Instance lib : Rev2.Libvirtwrap t :=
  {| Rev2.virsh_GetVMDiskPaths := λ _ w, (Ok (owned w), w);
     Rev2.vm_IsRunning := λ _ w, (Ok (vmRunning w), w);
     Rev2.vm_VerifyDiskBelongsToVM :=
       λ _ p w, (Ok (bool_decide (p ∈ owned w)), w);
     Rev2.disk_ResizeAndExpandDisk :=
       λ p _ _ _ w,
         (None, {| vmRunning := vmRunning w; owned := owned w;
                   resized := p :: resized w |}) |}.

Definition quiet : t :=
  {| vmRunning := false; owned := ["/data/vm1.img"]; resized := [] |}.

Definition calls (p : Proc t (Rev2.LibEvent t)) : list Rev2.Call :=
  map Rev2.le_call (p_trace p).

End SimLib.


(** ** Scenarios on the simulated hosts *)

(** The flags of [kvm-vm-tune disk vm1 --image /data/vm1.img --size 40G]. *)
Definition vm1Flags : Flag.t :=
  {| Flag.imagePath := "/data/vm1.img"; Flag.device := "vda";
     Flag.partition := 1; Flag.size := "40G"; Flag.dryRun := false |}.

Definition withDryRun (fl : Flag.t) : Flag.t :=
  {| Flag.imagePath := Flag.imagePath fl; Flag.device := Flag.device fl;
     Flag.partition := Flag.partition fl; Flag.size := Flag.size fl;
     Flag.dryRun := true |}.

Definition withSize (fl : Flag.t) (sz : string) : Flag.t :=
  {| Flag.imagePath := Flag.imagePath fl; Flag.device := Flag.device fl;
     Flag.partition := Flag.partition fl; Flag.size := sz;
     Flag.dryRun := Flag.dryRun fl |}.

Definition withImage (fl : Flag.t) (image : string) : Flag.t :=
  {| Flag.imagePath := image; Flag.device := Flag.device fl;
     Flag.partition := Flag.partition fl; Flag.size := Flag.size fl;
     Flag.dryRun := Flag.dryRun fl |}.

(** A host on which both [virt-resize] and the deletion of the artifact
    fail. *)
Definition stuck : Sim.t :=
  Sim.tripping Sim.quiet
    [Rev1.resizeCmd "vda" 1 "/data/vm1.img" "/data/vm1.img.new";
     Rev1.rmCmd "/data/vm1.img.new"].

(** A host on which the query for the running VMs fails. *)
Definition deaf : Sim.t := Sim.tripping Sim.quiet [Rev1.listCmd].

(** The second revision's library with VM running. *)
Definition busyLib : SimLib.t :=
  {| SimLib.vmRunning := true; SimLib.owned := ["/data/vm1.img"];
     SimLib.resized := [] |}.

(** A host where [vm1] owns one image and another image lies next to
    it. *)
Definition shared : Sim.t :=
  {| Sim.fs := {[ "/data/vm1.img" := "vm1 root disk";
                  "/data/other.img" := "disk of another VM" ]};
     Sim.running := ["web"; "db"];
     Sim.disks := ["/data/vm1.img"];
     Sim.failing := [] |}.

(** A host on which [qemu-img create] fails. *)
Definition full : Sim.t :=
  Sim.tripping Sim.quiet
    [["sudo"; "qemu-img"; "create"; "-f"; "qcow2"; "-o";
      "preallocation=metadata"; "/data/vm1.img.new"; "40G"]].

(** A host that refuses the maximum CPU count, and one that takes the
    maximum and refuses the current count. *)
Definition capped : Sim.t :=
  Sim.tripping Sim.quiet
    [["sudo"; "virsh"; "setvcpus"; "vm1"; "4"; "--config"; "--maximum"]].

Definition lopsided : Sim.t :=
  Sim.tripping Sim.quiet
    [["sudo"; "virsh"; "setvcpus"; "vm1"; "4"; "--config"]].

Definition lopsidedMemory : Sim.t :=
  Sim.tripping Sim.quiet
    [["sudo"; "virsh"; "setmem"; "vm1"; "8G"; "--config"]].

(** The no-break space U+00A0 in UTF-8. *)
Definition NBSP : string :=
  String (ascii_of_nat 194) (String (ascii_of_nat 160) EmptyString).

(** A host on which the running VMs have names with a blank at one end:
    [ web] starts with a space, [db ] ends with one. *)
Definition blankEdged : Sim.t :=
  {| Sim.fs := {[ "/data/vm1.img" := "vm1 root disk" ]};
     Sim.running := [" web"; "db "];
     Sim.disks := ["/data/vm1.img"];
     Sim.failing := [] |}.

(** A host on which the one running VM has a name that ends with a
    no-break space. *)
Definition nbspEdged : Sim.t :=
  {| Sim.fs := {[ "/data/vm1.img" := "vm1 root disk" ]};
     Sim.running := ["web" +:+ NBSP];
     Sim.disks := ["/data/vm1.img"];
     Sim.failing := [] |}.

(** ** Words used by the statements *)

(** The events a run added to the trace of the process it started from. *)
Definition added {World Ev : Type} (p p' : Proc World Ev) : list Ev :=
  drop (length (p_trace p)) (p_trace p').

(** The events are the answers of the host itself: the first command was
    given to the host as it stood at [w], each later one to the host the
    one before it left, and [w'] is the host after the last. *)
Fixpoint answered {World : Type} `{Host World} (w : World)
    (evs : list (Event World)) (w' : World) : Prop :=
  match evs with
  | [] => w' = w
  | e :: rest =>
      exec (ev_argv e) w = (ev_res e, ev_after e)
      ∧ answered (ev_after e) rest w'
  end.

(** [sub] occurs in [s]. *)
Definition inside (sub s : string) : Prop :=
  ∃ pre post, s = pre +:+ sub +:+ post.

(** [s] ends with [tl]. *)
Definition endsWith (tl s : string) : Prop :=
  ∃ pre, s = pre +:+ tl.

(** The byte [c] occurs in [s]. *)
Fixpoint mentions (c : ascii) (s : string) : bool :=
  match s with
  | EmptyString => false
  | String x s' => bool_decide (x = c) || mentions c s'
  end.

(** A name that neither starts nor ends with a white space rune and
    holds no line feed. *)
Definition startsPlain (s : string) : Prop :=
  s ≠ "" ∧ spaceWidth s = 0%nat.

Definition endsPlain (s : string) : Prop :=
  s ≠ "" ∧ spaceWidthBack (reverse s) = 0%nat.

Definition plainName (s : string) : Prop :=
  startsPlain s ∧ endsPlain s ∧ mentions (ascii_of_nat 10) s = false.

(** A command of the create / migrate / replace pipeline or of its
    rollback. *)
Definition pipelineTool (argv : list string) : bool :=
  match argv with
  | _ :: tool :: _ =>
      bool_decide (tool = "qemu-img" ∨ tool = "virt-resize"
                   ∨ tool = "mv" ∨ tool = "rm")
  | _ => false
  end.

(** The call that starts the pipeline in the second revision. *)
Definition isResize (c : Rev2.Call) : bool :=
  match c with
  | Rev2.DoResize _ _ _ _ => true
  | _ => false
  end.

(** The text printed when the VM is found running (both revisions). *)
Definition vmRunningText (vmName : string) : string :=
  "VM '" +:+ vmName
  +:+ "' is currently running. Please stop the VM before making changes."
  +:+ LF.

(** The first line the disk command prints (both revisions). *)
Definition selectedText (imagePath device : string) : string :=
  "Selected disk: " +:+ imagePath +:+ " (device: " +:+ device +:+ ")" +:+ LF.

(** A command line as the dry run shows it: the words of the command
    separated by blanks, after the word [Command:]. *)
Definition commandLine (argv : list string) : string :=
  "Command: " +:+ Join argv " " +:+ LF.

(** An inventory or state query of the first revision. *)
Definition isQuery (vmName : string) (argv : list string) : Prop :=
  argv = Rev1.dumpxmlCmd vmName ∨ argv = Rev1.listCmd.

(** ** Further simulated hosts and words *)

(** A simulated [strconv.Atoi]: an optional sign and decimal digits, within
    the range of a 64-bit [int]. *)
Module SimConv.

Definition digitOf (c : ascii) : option Z :=
  let n := Z.of_nat (nat_of_ascii c) in
  if bool_decide (48 ≤ n ≤ 57) then Some (n - 48) else None.

Fixpoint digits (acc : Z) (s : string) : option Z :=
  match s with
  | EmptyString => Some acc
  | String c s' =>
      match digitOf c with
      | Some d => digits (acc * 10 + d) s'
      | None => None
      end
  end.

Definition refused (s why : string) : result Z :=
  Err ("strconv.Atoi: parsing " +:+ String (ascii_of_nat 34) s
       +:+ String (ascii_of_nat 34) ": " +:+ why).

Definition atoi (s : string) : result Z :=
  match s with
  | EmptyString => refused s "invalid syntax"
  | String c rest =>
      let neg := bool_decide (c = "-"%char) in
      let body := if bool_decide (c = "-"%char ∨ c = "+"%char) then rest
                  else s in
      match body with
      | EmptyString => refused s "invalid syntax"
      | _ =>
          match digits 0 body with
          | None => refused s "invalid syntax"
          | Some n =>
              let v := if neg then - n else n in
              if bool_decide (- 2 ^ 63 ≤ v < 2 ^ 63) then Ok v
              else refused s "value out of range"
          end
      end
  end.

#[global] Instance conv : Strconv := {| Atoi := atoi |}.

End SimConv.

(** A simulated libvirtwrap-go whose queries fail. *)
Module SimLibDown.

Record t := { asked : nat }.

Definition more (w : t) : t := {| asked := S (asked w) |}.

#[global] Instance lib : Rev2.Libvirtwrap t :=
  {| Rev2.virsh_GetVMDiskPaths := λ _ w, (Ok ["/data/vm1.img"], more w);
     Rev2.vm_IsRunning := λ _ w, (Err "connection refused", more w);
     Rev2.vm_VerifyDiskBelongsToVM := λ _ _ w, (Err "connection refused", more w);
     Rev2.disk_ResizeAndExpandDisk := λ _ _ _ _ w, (None, more w) |}.

End SimLibDown.

(** A simulated package [vm] for the cpu and memory commands. *)
Module SimVM.

Record t := { vcpus : Z; memory : string }.

#[global] Instance vm : Rev2.Mutator t :=
  {| Rev2.vm_SetCPUCount :=
       λ _ n w, if bool_decide (0 < n) then
                  (None, {| vcpus := n; memory := memory w |})
                else (Some "invalid vCPU count", w);
     Rev2.vm_SetMemorySize :=
       λ _ s w, (None, {| vcpus := vcpus w; memory := s |}) |}.

End SimVM.

(** A host on which [virt-resize] fails and the artifact can be deleted. *)
Definition halfway : Sim.t :=
  Sim.tripping Sim.quiet
    [Rev1.resizeCmd "vda" 1 "/data/vm1.img" "/data/vm1.img.new"].

(** What [rm] promises beyond [ToolContract]: after a successful
    [rm p] nothing is left under [p]. *)
Record CleanupContract (World : Type) `{Host World} `{Images World} : Prop := {
  rm_removes : ∀ p w,
    cr_err (exec (Rev1.rmCmd p) w).1 = None →
    contents (exec (Rev1.rmCmd p) w).2 p = None
}.

(** The commands of the pipeline and of its rollback on image [f]. *)
Definition pipelineOn (fl : Flag.t) (f : string) : list (list string) :=
  [Rev1.createCmd (f +:+ ".new") (Flag.size fl);
   Rev1.resizeCmd (Flag.device fl) (Flag.partition fl) f (f +:+ ".new");
   Rev1.mvCmd (f +:+ ".new") f;
   Rev1.rmCmd (f +:+ ".new")].

(** The image the second revision works on: the one named by the flag,
    or the first path its first call (the disk inventory) answered with. *)
Definition selectedPath {World : Type} (fl : Flag.t)
    (first : option (Rev2.LibEvent World)) : string :=
  if bool_decide (Flag.imagePath fl = "") then
    match first with
    | Some e =>
        match Rev2.le_answer e with
        | Rev2.Paths (Ok (d :: _)) => d
        | _ => ""
        end
    | None => ""
    end
  else Flag.imagePath fl.

(** The calls of a complete run of the second revision's disk command. *)
Definition callPlan (fl : Flag.t) (vmName f : string) : list Rev2.Call :=
  (if bool_decide (Flag.imagePath fl = "") then [Rev2.AskDiskPaths vmName]
   else [])
  ++ [Rev2.AskRunning vmName; Rev2.AskOwner vmName f;
      Rev2.DoResize f (Flag.device fl) (Flag.partition fl) (Flag.size fl)].

(** The lines of the second revision's dry run and success. *)
Definition wouldResizeText (imagePath size vmName : string) : string :=
  "Would resize disk " +:+ imagePath +:+ " to " +:+ size +:+ " for VM '"
  +:+ vmName +:+ "'" +:+ LF.

Definition isQuery2 (c : Rev2.Call) : bool :=
  match c with
  | Rev2.AskDiskPaths _ | Rev2.AskRunning _ => true
  | _ => false
  end.

(** The two commands of [changeCPUCount] and of [changeMemorySize]. *)
Definition cpuPlan (vmName : string) (cpuCount : Z) : list (list string) :=
  [["sudo"; "virsh"; "setvcpus"; vmName; fmt_d cpuCount; "--config";
    "--maximum"];
   ["sudo"; "virsh"; "setvcpus"; vmName; fmt_d cpuCount; "--config"]].

Definition memoryPlan (vmName memorySize : string) : list (list string) :=
  [["sudo"; "virsh"; "setmaxmem"; vmName; memorySize; "--config"];
   ["sudo"; "virsh"; "setmem"; vmName; memorySize; "--config"]].

Definition cpuChangedText (cpuCount : Z) (vmName : string) : string :=
  "CPU count changed to " +:+ fmt_d cpuCount +:+ " for VM '" +:+ vmName
  +:+ "'." +:+ LF.

Definition memoryChangedText (memorySize vmName : string) : string :=
  "Memory size changed to " +:+ memorySize +:+ " for VM '" +:+ vmName
  +:+ "'." +:+ LF.

(** * Properties *)

(** ** Strings *)

Lemma append_cons (x : ascii) (a b : string) :
  String x a +:+ b = String x (a +:+ b).
Proof. reflexivity. Qed.

Lemma append_assoc (a b c : string) : (a +:+ b) +:+ c = a +:+ (b +:+ c).
Proof.
  induction a as [|x a IH]; [reflexivity|].
  rewrite !append_cons. by rewrite IH.
Qed.

Lemma append_nil_l (s : string) : "" +:+ s = s.
Proof. reflexivity. Qed.

Lemma append_nil_r (a : string) : a +:+ "" = a.
Proof.
  induction a as [|x a IH]; [reflexivity|].
  rewrite append_cons. by rewrite IH.
Qed.

Lemma append_length (a b : string) :
  String.length (a +:+ b) = (String.length a + String.length b)%nat.
Proof.
  induction a as [|x a IH]; [reflexivity|].
  rewrite append_cons. simpl. by rewrite IH.
Qed.

(** The artifact path is never the path of the original. *)
Lemma new_path_differs (imagePath : string) : imagePath ≠ imagePath +:+ ".new".
Proof.
  intros E. apply (f_equal String.length) in E.
  rewrite append_length in E. simpl in E. lia.
Qed.

Lemma inside_refl (x : string) : inside x x.
Proof. exists "", "". by rewrite append_nil_r. Qed.

Lemma inside_here (x rest : string) : inside x (x +:+ rest).
Proof. by exists "", rest. Qed.

Lemma inside_later (x a s : string) : inside x s → inside x (a +:+ s).
Proof.
  intros (pre & post & ->). exists (a +:+ pre), post.
  by rewrite append_assoc.
Qed.

Lemma endsWith_refl (x : string) : endsWith x x.
Proof. by exists "". Qed.

Lemma endsWith_later (x a s : string) : endsWith x s → endsWith x (a +:+ s).
Proof. intros (pre & ->). exists (a +:+ pre). by rewrite append_assoc. Qed.

Create HintDb texts.
#[local] Hint Resolve inside_refl inside_here inside_later
  endsWith_refl endsWith_later : texts.

(** ** Splitting at line feeds *)

Lemma splitGo_LF (cur : string) (c : ascii) (s : string) :
  splitGo LF 0 cur (String c s)
  = if bool_decide (c = ascii_of_nat 10) then cur :: splitGo LF 0 "" s
    else splitGo LF 0 (cur +:+ String c "") s.
Proof.
  change (splitGo LF 0 cur (String c s))
    with (if (if ascii_dec (ascii_of_nat 10) c then String.prefix "" s
              else false)
          then cur :: splitGo LF 0 "" s
          else splitGo LF 0 (cur +:+ String c "") s).
  destruct (ascii_dec (ascii_of_nat 10) c) as [<-|Hc].
  - rewrite bool_decide_eq_true_2 by done. by destruct s.
  - by rewrite bool_decide_eq_false_2 by congruence.
Qed.

(** ** Traces *)

Lemma added_app {World Ev : Type} (p p' : Proc World Ev) (evs : list Ev) :
  p_trace p' = p_trace p ++ evs → added p p' = evs.
Proof. intros E. unfold added. rewrite E. apply drop_app_length. Qed.

(** Unfold one program of the first revision on a process and split on
    the answers of the host, command by command. *)
Ltac unfold_prog :=
  unfold Rev1.resizeAndExpandDisk, Rev1.changeCPUCount, Rev1.changeMemorySize,
    Rev1.isVMStopped, Rev1.getVMDisks, Rev1.printResizeCommand,
    bind, run, Print, Eprint, ret, Exit.

Ltac answer_step :=
  cbn [fst snd cr_err cr_stdout cr_combined p_world p_trace
       p_stdout p_stderr p_stdin];
  match goal with
  | |- context [exec ?a ?w] =>
      let w' := fresh "w" in
      let e := fresh "err" in
      let E := fresh "E" in
      destruct (exec a w) as [[[e|] ? ?] w'] eqn:E
  end.

(** Settle a statement about the event at position [i] of an explicit
    trace: positions whose command line differs are dismissed, the
    others answered by the trace itself. *)
Ltac by_position :=
  let i := fresh "i" in
  let e := fresh "e" in
  let Hi := fresh "Hi" in
  let He := fresh "He" in
  intros i e Hi He;
  repeat match type of Hi with
         | (_ :: _) !! ?j = Some _ => destruct j; simpl in Hi
         end;
  simplify_eq; simpl in He; try discriminate He;
  try (eexists; repeat split; reflexivity).

Ltac trace_shape :=
  cbn [fst snd cr_err cr_stdout cr_combined p_world p_trace
       p_stdout p_stderr p_stdin negb Devices_Disks];
  repeat rewrite <- (assoc_L (++));
  cbn [app];
  erewrite added_app by reflexivity.

(** The fields of an event, and the events as the host answered them. *)
Ltac fields := cbn [ev_res ev_argv ev_after cr_err cr_combined].

Ltac host_answers :=
  cbn [answered ev_argv ev_res ev_after p_world];
  repeat split; first [assumption | reflexivity].

Section Pipeline.
Context {World : Type} `{Host World}.

(** C4: the three steps run one after the other, each started only after
    the one before it returned success and on the host that one left:
    create first; after a create without error virt-resize, and only
    then; after a virt-resize without error mv, and only then; the result
    is nil only after an mv without error.  A failed create ends the run:
    the error carries the tool's output as it is, and no other command
    (no cleanup either) is started. *)
Theorem steps_strictly_sequential
    (imagePath device : string) (partition : Z) (newSize : string)
    (p : Proc World (Event World)) :
  let newImagePath := imagePath +:+ ".new" in
  let create := ["sudo"; "qemu-img"; "create"; "-f"; "qcow2"; "-o";
                 "preallocation=metadata"; newImagePath; newSize] in
  let migrate := ["sudo"; "virt-resize"; "--expand";
                  "/dev/" +:+ device +:+ fmt_d partition;
                  imagePath; newImagePath] in
  let replace := ["sudo"; "mv"; newImagePath; imagePath] in
  let out := Rev1.resizeAndExpandDisk imagePath device partition newSize p in
  let evs := added p out.2 in
  answered (p_world p) evs (p_world out.2)
  ∧ (∃ c rest,
      evs = c :: rest
      ∧ ev_argv c = create
      ∧ match cr_err (ev_res c) with
        | Some err =>
            rest = []
            ∧ out.1 = Done (Some ("failed to create new image: " +:+ err
                                  +:+ ", output: " +:+ cr_combined (ev_res c)))
        | None =>
            ∃ m rest',
              rest = m :: rest'
              ∧ ev_argv m = migrate
              ∧ match cr_err (ev_res m) with
                | Some _ => ∃ msg, out.1 = Done (Some msg)
                | None =>
                    ∃ v rest'',
                      rest' = v :: rest''
                      ∧ ev_argv v = replace
                      ∧ match cr_err (ev_res v) with
                        | Some _ => ∃ msg, out.1 = Done (Some msg)
                        | None => rest'' = [] ∧ out.1 = Done None
                        end
                end
        end)
  ∧ (∀ i e, evs !! i = Some e → ev_argv e = migrate →
       ∃ c, i = 1%nat ∧ evs !! 0%nat = Some c
            ∧ ev_argv c = create
            ∧ cr_err (ev_res c) = None)
  ∧ (∀ i e, evs !! i = Some e → ev_argv e = replace →
       ∃ m, i = 2%nat ∧ evs !! 1%nat = Some m
            ∧ ev_argv m = migrate
            ∧ cr_err (ev_res m) = None).
Proof.
  intros newImagePath create migrate replace out evs.
  subst out evs newImagePath create migrate replace.
  unfold_prog. unfold Rev1.createCmd, Rev1.resizeCmd, Rev1.mvCmd, Rev1.rmCmd.
  repeat answer_step; trace_shape.
  all: split; [host_answers|].
  all: split; [eexists _, _; split; [reflexivity|]; split; [reflexivity|]|].
  all: fields; try done.
  all: try (eexists _, _; split; [reflexivity|]; split; [reflexivity|];
            fields; try by eexists).
  all: try (eexists _, _; split; [reflexivity|]; split; [reflexivity|];
            fields;
            first [done | by eexists]).
  all: split; by_position.
Qed.

(** C3: when migrate or replace fails, the next and last command is
    [sudo rm] on the artifact, given to the host as the failed step left
    it, and an error comes back; it ends with the words that the new
    image was removed when the host answered the deletion without error,
    and holds the diagnostics of both failures when the deletion failed
    too. *)
Theorem rollback_reports_artifact
    (imagePath device : string) (partition : Z) (newSize : string)
    (p : Proc World (Event World)) (i : nat) (e : Event World) (err : string) :
  let newImagePath := imagePath +:+ ".new" in
  let migrate := ["sudo"; "virt-resize"; "--expand";
                  "/dev/" +:+ device +:+ fmt_d partition;
                  imagePath; newImagePath] in
  let replace := ["sudo"; "mv"; newImagePath; imagePath] in
  let out := Rev1.resizeAndExpandDisk imagePath device partition newSize p in
  let evs := added p out.2 in
  evs !! i = Some e →
  ev_argv e = migrate ∨ ev_argv e = replace →
  cr_err (ev_res e) = Some err →
  ∃ d msg,
    evs !! S i = Some d
    ∧ length evs = S (S i)
    ∧ ev_argv d = ["sudo"; "rm"; newImagePath]
    ∧ answered (ev_after e) [d] (p_world out.2)
    ∧ answered (p_world p) evs (p_world out.2)
    ∧ out.1 = Done (Some msg)
    ∧ inside err msg
    ∧ (ev_argv e = migrate → inside (cr_combined (ev_res e)) msg)
    ∧ match cr_err (ev_res d) with
      | None => endsWith "New image was removed." msg
      | Some rmErr =>
          inside rmErr msg ∧ inside (cr_combined (ev_res d)) msg
      end.
Proof.
  intros newImagePath migrate replace out evs.
  subst out evs newImagePath migrate replace.
  unfold_prog. unfold Rev1.createCmd, Rev1.resizeCmd, Rev1.mvCmd, Rev1.rmCmd.
  repeat answer_step; trace_shape; intros Hi He Herr.
  all: repeat match type of Hi with
              | (_ :: _) !! ?j = Some _ => destruct j; simpl in Hi
              end; simplify_eq; simpl in He, Herr.
  all: try (destruct He as [He|He]; discriminate He).
  all: simplify_eq; eexists _, _.
  all: split; [reflexivity|]; split; [reflexivity|]; split; [reflexivity|].
  all: split; [host_answers|].
  all: split; [host_answers|].
  all: split; [reflexivity|]; fields.
  all: split; [auto 10 with texts|].
  all: split; [try (intros [=]); auto 10 with texts|].
  all: try split; auto 12 with texts.
  all: change ". New image was removed."
         with (". " +:+ "New image was removed."); auto 12 with texts.
Qed.

End Pipeline.

Section Original.
Context {World : Type} `{Host World} `{Images World}.
Hypothesis contract : ToolContract World.

Lemma create_keeps p sz w r w' q :
  exec (Rev1.createCmd p sz) w = (r, w') → q ≠ p →
  contents w' q = contents w q.
Proof.
  intros E Hq. rewrite <- (create_frame World contract p sz w q Hq).
  by rewrite E.
Qed.

Lemma resize_keeps dev part src dst w r w' q :
  exec (Rev1.resizeCmd dev part src dst) w = (r, w') → q ≠ dst →
  contents w' q = contents w q.
Proof.
  intros E Hq.
  rewrite <- (resize_frame World contract dev part src dst w q Hq).
  by rewrite E.
Qed.

Lemma rm_keeps p w r w' q :
  exec (Rev1.rmCmd p) w = (r, w') → q ≠ p → contents w' q = contents w q.
Proof.
  intros E Hq. rewrite <- (rm_frame World contract p w q Hq). by rewrite E.
Qed.

Lemma mv_lands a b w r w' :
  exec (Rev1.mvCmd a b) w = (r, w') → a ≠ b → cr_err r = None →
  contents w' b = contents w a ∧ contents w' a = None.
Proof.
  intros E Hab Hr.
  pose proof (mv_moves World contract a b w Hab) as M.
  rewrite E in M. by apply M.
Qed.

(** C1: on a host whose tools keep their contract, the only deletions of
    a run are of the artifact [imagePath.new]; the move over the original
    is started only right after a migrate that returned success; until
    that move is started the original holds what it held before the run;
    and after a run without error nothing is left under the artifact path
    and the original path holds what the migrate step left in the
    artifact. *)
Theorem original_kept_until_replaced
    (imagePath device : string) (partition : Z) (newSize : string)
    (p : Proc World (Event World)) :
  let newImagePath := imagePath +:+ ".new" in
  let out := Rev1.resizeAndExpandDisk imagePath device partition newSize p in
  let evs := added p out.2 in
  (∀ i e, evs !! i = Some e →
     (∃ args, ev_argv e = "sudo" :: "rm" :: args) →
     ev_argv e = Rev1.rmCmd newImagePath)
  ∧ (∀ i e, evs !! i = Some e →
       (∃ args, ev_argv e = "sudo" :: "mv" :: args) →
       ev_argv e = Rev1.mvCmd newImagePath imagePath
       ∧ ∃ m, i = 2%nat ∧ evs !! 1%nat = Some m
              ∧ ev_argv m
                = Rev1.resizeCmd device partition imagePath newImagePath
              ∧ cr_err (ev_res m) = None)
  ∧ (∀ i e, evs !! i = Some e →
       (∀ j m, (j ≤ i)%nat → evs !! j = Some m →
               ev_argv m ≠ Rev1.mvCmd newImagePath imagePath) →
       contents (ev_after e) imagePath = contents (p_world p) imagePath)
  ∧ (out.1 = Done None →
       ∃ c m v, evs = [c; m; v]
                ∧ ev_argv m
                  = Rev1.resizeCmd device partition imagePath newImagePath
                ∧ ev_argv v = Rev1.mvCmd newImagePath imagePath
                ∧ p_world out.2 = ev_after v
                ∧ contents (p_world out.2) newImagePath = None
                ∧ contents (p_world out.2) imagePath
                  = contents (ev_after m) newImagePath).
Proof.
  intros newImagePath out evs. subst out evs newImagePath.
  pose proof (new_path_differs imagePath) as Hnew.
  unfold_prog.
  repeat answer_step; trace_shape.
  all: cbn [fst snd p_world].
  all: repeat match goal with
         | E : exec (Rev1.createCmd _ _) _ = _ |- _ =>
             learn_hyp (create_keeps _ _ _ _ _ imagePath E Hnew)
         | E : exec (Rev1.resizeCmd _ _ _ _) _ = _ |- _ =>
             learn_hyp (resize_keeps _ _ _ _ _ _ _ imagePath E Hnew)
         | E : exec (Rev1.rmCmd _) _ = _ |- _ =>
             learn_hyp (rm_keeps _ _ _ _ imagePath E Hnew)
         end.
  all: repeat apply conj.
  (* deletions *)
  all: try (intros i e Hi [args He];
            repeat match type of Hi with
                   | (_ :: _) !! ?j = Some _ => destruct j; simpl in Hi
                   end;
            simplify_eq; simpl in He; try discriminate He; reflexivity).
  (* the move *)
  all: try (intros i e Hi [args He];
            repeat match type of Hi with
                   | (_ :: _) !! ?j = Some _ => destruct j; simpl in Hi
                   end;
            simplify_eq; simpl in He; try discriminate He;
            split; [reflexivity|]; eexists; repeat split; reflexivity).
  (* the original until the move *)
  all: try (intros i e Hi Hno;
            repeat match type of Hi with
                   | (_ :: _) !! ?j = Some _ => destruct j; simpl in Hi
                   end;
            simplify_eq; cbn [ev_after];
            first [ congruence
                  | exfalso; eapply (Hno 2%nat);
                    [lia | reflexivity | reflexivity] ]).
  (* full success *)
  all: try (intros [=]).
  eexists _, _, _.
  split; [reflexivity|]. split; [reflexivity|]. split; [reflexivity|].
  split; [reflexivity|]. cbn [ev_after].
  match goal with
  | E : exec (Rev1.mvCmd _ _) _ = _ |- _ =>
      destruct (mv_lands _ _ _ _ _ E (not_eq_sym Hnew) eq_refl) as [Hb Ha]
  end.
  by split.
Qed.

End Original.

(** ** The simulated host keeps the tools' contract *)

Ltac sim_answer :=
  unfold exec, contents; cbn [Sim.host Sim.images];
  unfold Sim.answer, Sim.toolOf, Rev1.createCmd, Rev1.resizeCmd, Rev1.rmCmd,
    Rev1.mvCmd;
  repeat (case_bool_decide; try discriminate; try done);
  repeat (case_match; try done);
  cbn [fst snd Sim.fs Sim.with_fs].

Lemma sim_contract : ToolContract Sim.t.
Proof.
  split.
  - intros p sz w q Hq. sim_answer. by rewrite lookup_insert_ne.
  - intros dev part src dst w q Hq. sim_answer. by rewrite lookup_insert_ne.
  - intros p w q Hq. sim_answer. by rewrite lookup_delete_ne.
  - intros a b w Hab. sim_answer; intros _.
    split.
    + rewrite lookup_insert_eq. done.
    + rewrite lookup_insert_ne by done. by rewrite lookup_delete_eq.
Qed.

(** ** CPU count and memory size *)

Section Mutator.
Context {World : Type} `{Host World}.

(** C9: [changeCPUCount] and [changeMemorySize] first start the call for
    the maximum and, only when it succeeded, the call for the current
    value on the host the first call left; the events are the answers of
    the host, nothing is printed, and the error names the call that
    failed. *)
Theorem maximum_then_current
    (vmName : string) (cpuCount : Z) (memorySize : string)
    (p : Proc World (Event World)) :
  let cpu := Rev1.changeCPUCount vmName cpuCount p in
  let mem := Rev1.changeMemorySize vmName memorySize p in
  (answered (p_world p) (added p cpu.2) (p_world cpu.2)
   ∧ p_stdout cpu.2 = p_stdout p ∧ p_stderr cpu.2 = p_stderr p
   ∧ ∃ mx,
      added p cpu.2 !! 0%nat = Some mx
      ∧ ev_argv mx = ["sudo"; "virsh"; "setvcpus"; vmName; fmt_d cpuCount;
                      "--config"; "--maximum"]
      ∧ match cr_err (ev_res mx) with
        | Some err =>
            added p cpu.2 = [mx]
            ∧ cpu.1 = Done (Some ("failed to set maximum CPU count: " +:+ err))
        | None =>
            ∃ cu,
              added p cpu.2 = [mx; cu]
              ∧ ev_argv cu = ["sudo"; "virsh"; "setvcpus"; vmName;
                              fmt_d cpuCount; "--config"]
              ∧ cpu.1
                = Done (match cr_err (ev_res cu) with
                        | Some err =>
                            Some ("failed to set current CPU count: " +:+ err)
                        | None => None
                        end)
        end)
  ∧ (answered (p_world p) (added p mem.2) (p_world mem.2)
     ∧ p_stdout mem.2 = p_stdout p ∧ p_stderr mem.2 = p_stderr p
     ∧ ∃ mx,
      added p mem.2 !! 0%nat = Some mx
      ∧ ev_argv mx = ["sudo"; "virsh"; "setmaxmem"; vmName; memorySize;
                      "--config"]
      ∧ match cr_err (ev_res mx) with
        | Some err =>
            added p mem.2 = [mx]
            ∧ mem.1 = Done (Some ("failed to set maximum memory: " +:+ err
                                  +:+ ", output: " +:+ cr_combined (ev_res mx)))
        | None =>
            ∃ cu,
              added p mem.2 = [mx; cu]
              ∧ ev_argv cu = ["sudo"; "virsh"; "setmem"; vmName; memorySize;
                              "--config"]
              ∧ mem.1
                = Done (match cr_err (ev_res cu) with
                        | Some err =>
                            Some ("failed to set current memory: " +:+ err
                                  +:+ ", output: " +:+ cr_combined (ev_res cu))
                        | None => None
                        end)
        end).
Proof.
  intros cpu mem. subst cpu mem. split.
  - unfold_prog. repeat answer_step; trace_shape.
    all: split; [host_answers|].
    all: split; [reflexivity|]; split; [reflexivity|].
    all: eexists; split; [reflexivity|]; split; [reflexivity|].
    all: fields; try done.
    all: eexists; split; [reflexivity|]; split; reflexivity.
  - unfold_prog. repeat answer_step; trace_shape.
    all: split; [host_answers|].
    all: split; [reflexivity|]; split; [reflexivity|].
    all: eexists; split; [reflexivity|]; split; [reflexivity|].
    all: fields; try done.
    all: eexists; split; [reflexivity|]; split; reflexivity.
Qed.

End Mutator.

(** ** The guards of the disk command *)

Lemma notListed_false (vmName : string) (vms : list string) :
  Rev1.notListed vmName vms = false ↔ vmName ∈ vms.
Proof.
  induction vms as [|vm rest IH]; simpl.
  - rewrite elem_of_nil. split; [discriminate | tauto].
  - rewrite elem_of_cons. case_bool_decide as Hvm.
    + split; [auto | reflexivity].
    + rewrite IH. split; [auto | intros [?|?]; [congruence | assumption]].
Qed.

Lemma notListed_true (vmName : string) (vms : list string) :
  Rev1.notListed vmName vms = true ↔ vmName ∉ vms.
Proof.
  rewrite <- notListed_false. destruct (Rev1.notListed vmName vms); naive_solver.
Qed.

(** Split a run of the disk command of the first revision on every
    answer and every test it makes. *)
Ltac disk_step :=
  cbn [fst snd cr_err cr_stdout cr_combined p_world p_trace
       p_stdout p_stderr p_stdin negb Devices_Disks];
  match goal with
  | |- context [exec ?a ?w] =>
      let w' := fresh "w" in
      let e := fresh "err" in
      let E := fresh "E" in
      destruct (exec a w) as [[[e|] ? ?] w'] eqn:E
  | |- context [xmlUnmarshal ?s] =>
      let U := fresh "U" in
      let disks := fresh "disks" in
      destruct (xmlUnmarshal s) as [[disks]|?] eqn:U
  | |- context [Rev1.notListed ?v ?l] =>
      let L := fresh "L" in destruct (Rev1.notListed v l) eqn:L
  | |- context [Rev1.declined ?r] =>
      let D := fresh "D" in destruct (Rev1.declined r) eqn:D
  | |- context [ReadString ?d ?s] =>
      lazymatch goal with
      | R : ReadString d s = _ |- _ => rewrite R
      | _ => let R := fresh "R" in destruct (ReadString d s) as [? ?] eqn:R
      end
  | |- context [bool_decide ?P] => case_bool_decide
  | |- context [Flag.dryRun ?fl] =>
      let Y := fresh "Y" in destruct (Flag.dryRun fl) eqn:Y
  | |- context [match ?l with [] => _ | _ :: _ => _ end] =>
      is_var l; destruct l
  end.

Ltac disk_cases :=
  match goal with
  | |- context [Rev1.runDiskCommand ?fl ?vm ?p] =>
      let r := fresh "r" in
      let p' := fresh "p'" in
      let Hrun := fresh "Hrun" in
      destruct (Rev1.runDiskCommand fl vm p) as [r p'] eqn:Hrun;
      revert Hrun;
      unfold Rev1.runDiskCommand; unfold_prog; unfold readLine;
      repeat disk_step;
      cbn [fst snd cr_err cr_stdout cr_combined p_world p_trace
           p_stdout p_stderr p_stdin negb Devices_Disks];
      intros [= <- <-]
  end;
  trace_shape.

(** The same for the second revision. *)
Ltac lib_step :=
  cbn [fst snd p_world p_trace p_stdout p_stderr p_stdin negb];
  match goal with
  | |- context [Rev2.virsh_GetVMDiskPaths ?v ?w] =>
      let G := fresh "G" in
      destruct (Rev2.virsh_GetVMDiskPaths v w) as [[[|? ?]|?] ?] eqn:G
  | |- context [Rev2.vm_IsRunning ?v ?w] =>
      let G := fresh "G" in
      destruct (Rev2.vm_IsRunning v w) as [[[|]|?] ?] eqn:G
  | |- context [Rev2.vm_VerifyDiskBelongsToVM ?v ?i ?w] =>
      let G := fresh "G" in
      destruct (Rev2.vm_VerifyDiskBelongsToVM v i w) as [[[|]|?] ?] eqn:G
  | |- context [Rev2.disk_ResizeAndExpandDisk ?i ?d ?n ?s ?w] =>
      let G := fresh "G" in
      destruct (Rev2.disk_ResizeAndExpandDisk i d n s w) as [[?|] ?] eqn:G
  | |- context [bool_decide ?P] => case_bool_decide
  | |- context [Flag.dryRun ?fl] =>
      let Y := fresh "Y" in destruct (Flag.dryRun fl) eqn:Y
  end.

Ltac lib_cases :=
  match goal with
  | |- context [Rev2.runDiskCommand ?fl ?vm ?q] =>
      let r := fresh "r" in
      let q' := fresh "q'" in
      let Hrun := fresh "Hrun" in
      destruct (Rev2.runDiskCommand fl vm q) as [r q'] eqn:Hrun;
      revert Hrun;
      unfold Rev2.runDiskCommand, Rev2.GetVMDiskPaths, Rev2.IsRunning,
        Rev2.VerifyDiskBelongsToVM, Rev2.ResizeAndExpandDisk, Rev2.called,
        bind, Print, Eprint, ret, Exit;
      repeat lib_step;
      cbn [fst snd p_world p_trace p_stdout p_stderr p_stdin negb];
      intros [= <- <-]
  end;
  trace_shape.

Ltac only_queries :=
  repeat (constructor; [first [left; reflexivity | right; reflexivity]|]);
  constructor.

Ltac positions Hi :=
  repeat match type of Hi with
         | (_ :: _) !! ?j = Some _ => destruct j; simpl in Hi
         end;
  simplify_eq.

Section Guards.
Context {World : Type} `{Host World}.
Context {Lib : Type} `{Rev2.Libvirtwrap Lib}.

(** Where the guard holds: when the list the program takes from the
    answer of the query for the running VMs holds the VM's name, the disk
    command ends with exit status 1 and the message that the VM is
    running, and no command of the pipeline is started (first revision);
    the same when [IsRunning] answers true (second revision). *)
Theorem running_vm_refused
    (fl : Flag.t) (vmName : string)
    (p : Proc World (Event World)) (q : Proc Lib (Rev2.LibEvent Lib)) :
  (∀ i e,
     added p (Rev1.runDiskCommand fl vmName p).2 !! i = Some e →
     ev_argv e = Rev1.listCmd →
     cr_err (ev_res e) = None →
     vmName ∈ Rev1.runningVMs (cr_stdout (ev_res e)) →
     (Rev1.runDiskCommand fl vmName p).1 = Exited 1
     ∧ p_stderr (Rev1.runDiskCommand fl vmName p).2
       = p_stderr p +:+ vmRunningText vmName
     ∧ Forall (λ e', pipelineTool (ev_argv e') = false)
         (added p (Rev1.runDiskCommand fl vmName p).2))
  ∧ (∀ i e,
       added q (Rev2.runDiskCommand fl vmName q).2 !! i = Some e →
       Rev2.le_call e = Rev2.AskRunning vmName →
       Rev2.le_answer e = Rev2.Truth (Ok true) →
       (Rev2.runDiskCommand fl vmName q).1 = Exited 1
       ∧ p_stderr (Rev2.runDiskCommand fl vmName q).2
         = p_stderr q +:+ vmRunningText vmName
       ∧ Forall (λ e', isResize (Rev2.le_call e') = false)
           (added q (Rev2.runDiskCommand fl vmName q).2)).
Proof.
  split.
  - intros i e. disk_cases; intros Hi He Hok Hin.
    all: positions Hi; simpl in He, Hok, Hin; try discriminate.
    all: try (apply notListed_true in L; contradiction).
    all: split; [reflexivity|]; split; [reflexivity|].
    all: repeat constructor.
  - intros i e. lib_cases; intros Hi He Hok.
    all: positions Hi; simpl in He, Hok; try discriminate.
    all: split; [reflexivity|]; split; [reflexivity|].
    all: repeat constructor.
Qed.

(** C10: when the query for the running VMs fails, [isVMStopped] answers
    false whatever the name, and the disk command ends exactly as for a
    running VM: exit status 1, the same message on standard error, no
    command of the pipeline started. *)
Theorem failed_query_counts_as_running
    (fl : Flag.t) (vmName : string) (p : Proc World (Event World)) :
  (∀ err, cr_err (exec Rev1.listCmd (p_world p)).1 = Some err →
          (Rev1.isVMStopped vmName p).1 = Done false
          ∧ p_stdout (Rev1.isVMStopped vmName p).2
            = p_stdout p +:+ "Failed to get list of running VMs: " +:+ err
              +:+ LF)
  ∧ (∀ i e err,
       added p (Rev1.runDiskCommand fl vmName p).2 !! i = Some e →
       ev_argv e = Rev1.listCmd →
       cr_err (ev_res e) = Some err →
       (Rev1.runDiskCommand fl vmName p).1 = Exited 1
       ∧ p_stderr (Rev1.runDiskCommand fl vmName p).2
         = p_stderr p +:+ vmRunningText vmName
       ∧ Forall (λ e', pipelineTool (ev_argv e') = false)
           (added p (Rev1.runDiskCommand fl vmName p).2)).
Proof.
  split.
  - intros err. unfold_prog.
    destruct (exec Rev1.listCmd (p_world p)) as [[[e|] ? ?] w] eqn:E;
      cbn [fst snd cr_err]; [|discriminate].
    intros [= ->]. split; reflexivity.
  - intros i e err. disk_cases; intros Hi He Herr.
    all: positions Hi; simpl in He, Herr; try discriminate.
    all: split; [reflexivity|]; split; [reflexivity|].
    all: repeat constructor.
Qed.


Lemma no_pipeline_in_queries (vmName : string) (evs : list (Event World)) :
  Forall (λ e, isQuery vmName (ev_argv e)) evs →
  Forall (λ e, pipelineTool (ev_argv e) = false) evs.
Proof.
  intros Hq. eapply Forall_impl; [exact Hq|].
  intros e [->| ->]; reflexivity.
Qed.


(** C6, as the code has it: in the second revision the pipeline is
    called only right after [VerifyDiskBelongsToVM] answered true for the
    same image, and an answer of false ends the run with exit status 1 and
    the message that the disk does not belong to the VM, the pipeline not
    called.  The first revision has no such check: given an image it
    starts the query for the running VMs and commands of the pipeline,
    nothing else. *)
Theorem ownership_checked_before_resize
    (fl : Flag.t) (vmName : string)
    (p : Proc World (Event World)) (q : Proc Lib (Rev2.LibEvent Lib)) :
  (∀ i e image dev part sz,
     added q (Rev2.runDiskCommand fl vmName q).2 !! i = Some e →
     Rev2.le_call e = Rev2.DoResize image dev part sz →
     ∃ j v, i = S j
            ∧ added q (Rev2.runDiskCommand fl vmName q).2 !! j = Some v
            ∧ Rev2.le_call v = Rev2.AskOwner vmName image
            ∧ Rev2.le_answer v = Rev2.Truth (Ok true))
  ∧ (∀ i e image,
       added q (Rev2.runDiskCommand fl vmName q).2 !! i = Some e →
       Rev2.le_call e = Rev2.AskOwner vmName image →
       Rev2.le_answer e = Rev2.Truth (Ok false) →
       (Rev2.runDiskCommand fl vmName q).1 = Exited 1
       ∧ p_stderr (Rev2.runDiskCommand fl vmName q).2
         = p_stderr q +:+ "The specified disk does not belong to VM '"
           +:+ vmName +:+ "'" +:+ LF
       ∧ Forall (λ e', isResize (Rev2.le_call e') = false)
           (added q (Rev2.runDiskCommand fl vmName q).2))
  ∧ (Flag.imagePath fl ≠ "" →
     Forall (λ e', ev_argv e' = Rev1.listCmd
                   ∨ pipelineTool (ev_argv e') = true)
       (added p (Rev1.runDiskCommand fl vmName p).2)).
Proof.
  split; [|split].
  - intros i e image dev part sz. lib_cases; intros Hi He.
    all: positions Hi; simpl in He; try discriminate.
    all: simplify_eq; eexists _, _; repeat split; reflexivity.
  - intros i e image. lib_cases; intros Hi He Hno.
    all: positions Hi; simpl in He, Hno; try discriminate.
    all: split; [reflexivity|]; split; [reflexivity|].
    all: repeat constructor.
  - intros Himage. disk_cases; try contradiction.
    all: only_queries.
Qed.

(** C7, as the code has it: [printResizeCommand] prints exactly the
    three command lines of the pipeline (create, migrate, replace, each
    after [sudo], the artifact being [imagePath.new]) and starts nothing;
    a dry run of the disk command reaches it only after the disk selection,
    the query for the running VMs and the size test, so the commands it
    starts are those queries and no other, and it ends either with exit
    status 1 or, the VM found stopped and a size given, with the line of
    the selected disk followed by the three command lines. *)
Theorem dry_run_previews_after_checks
    (fl : Flag.t) (vmName : string) (p : Proc World (Event World))
    (image dev : string) (part : Z) (sz : string) :
  Rev1.printResizeCommand image dev part sz p
  = (Done tt,
     {| p_world := p_world p; p_trace := p_trace p;
        p_stdout :=
          p_stdout p
          +:+ commandLine (Rev1.createCmd (image +:+ ".new") sz)
          +:+ commandLine (Rev1.resizeCmd dev part image (image +:+ ".new"))
          +:+ commandLine (Rev1.mvCmd (image +:+ ".new") image);
        p_stderr := p_stderr p; p_stdin := p_stdin p |})
  ∧ (Flag.dryRun fl = true →
     Forall (λ e, isQuery vmName (ev_argv e))
       (added p (Rev1.runDiskCommand fl vmName p).2)
     ∧ (0 < length (added p (Rev1.runDiskCommand fl vmName p).2))%nat
     ∧ p_stdin (Rev1.runDiskCommand fl vmName p).2 = p_stdin p
     ∧ ((Rev1.runDiskCommand fl vmName p).1 = Exited 1
        ∨ (Rev1.runDiskCommand fl vmName p).1 = Done tt
          ∧ Flag.size fl ≠ ""
          ∧ p_stderr (Rev1.runDiskCommand fl vmName p).2 = p_stderr p
          ∧ (∃ e, last (added p (Rev1.runDiskCommand fl vmName p).2) = Some e
                  ∧ ev_argv e = Rev1.listCmd
                  ∧ cr_err (ev_res e) = None
                  ∧ vmName ∉ Rev1.runningVMs (cr_stdout (ev_res e)))
          ∧ ∃ img,
              (Flag.imagePath fl ≠ "" → img = Flag.imagePath fl)
              ∧ p_stdout (Rev1.runDiskCommand fl vmName p).2
                = p_stdout p
                  +:+ selectedText img (Flag.device fl)
                  +:+ commandLine
                        (Rev1.createCmd (img +:+ ".new") (Flag.size fl))
                  +:+ commandLine
                        (Rev1.resizeCmd (Flag.device fl) (Flag.partition fl)
                           img (img +:+ ".new"))
                  +:+ commandLine (Rev1.mvCmd (img +:+ ".new") img))).
Proof.
  split.
  - unfold_prog. cbn [p_world p_trace p_stdout p_stderr p_stdin].
    do 2 f_equal.
    unfold commandLine, Rev1.createCmd, Rev1.resizeCmd, Rev1.mvCmd.
    cbn [Join]. rewrite !append_assoc. reflexivity.
  - intros Hdry. disk_cases; try congruence.
    all: split; [only_queries|].
    all: split; [simpl; lia|].
    all: split; [reflexivity|].
    all: try (left; reflexivity).
    all: right; split; [reflexivity|]; split; [assumption|].
    all: split; [reflexivity|].
    all: split;
      [eexists; split; [reflexivity|]; split; [reflexivity|];
       split; [reflexivity|]; by apply notListed_true|].
    all: match goal with
         | |- context ["Selected disk: " +:+ ?x +:+ _] => exists x
         end.
    all: split; [first [contradiction | intros; reflexivity]|].
    all: unfold commandLine, selectedText, Rev1.createCmd, Rev1.resizeCmd,
           Rev1.mvCmd; cbn [Join]; rewrite !append_assoc; reflexivity.
Qed.

(** C8, as the code has it: with no size given the disk command ends
    with exit status 1 and starts no command of the pipeline, but it has
    started at least one query before; the message asking for the size is
    the one reported when the query for the running VMs answered without
    the VM's name, and that query is then the last command. *)
Theorem missing_size_reported_after_queries
    (fl : Flag.t) (vmName : string) (p : Proc World (Event World)) :
  Flag.size fl = "" →
  (Rev1.runDiskCommand fl vmName p).1 = Exited 1
  ∧ Forall (λ e, isQuery vmName (ev_argv e))
      (added p (Rev1.runDiskCommand fl vmName p).2)
  ∧ (0 < length (added p (Rev1.runDiskCommand fl vmName p).2))%nat
  ∧ p_stdin (Rev1.runDiskCommand fl vmName p).2 = p_stdin p
  ∧ (∀ i e,
       added p (Rev1.runDiskCommand fl vmName p).2 !! i = Some e →
       ev_argv e = Rev1.listCmd →
       cr_err (ev_res e) = None →
       vmName ∉ Rev1.runningVMs (cr_stdout (ev_res e)) →
       p_stderr (Rev1.runDiskCommand fl vmName p).2
       = p_stderr p
         +:+ "Please specify the new size using the --size option" +:+ LF
       ∧ length (added p (Rev1.runDiskCommand fl vmName p).2) = S i).
Proof.
  intros Hsize. disk_cases; try congruence.
  all: split; [reflexivity|].
  all: split; [only_queries|].
  all: split; [simpl; lia|].
  all: split; [reflexivity|].
  all: intros i ev Hi He Hok Hout.
  all: positions Hi; simpl in He, Hok, Hout; try discriminate.
  all: try (apply notListed_false in L; contradiction).
  all: split; reflexivity.
Qed.

End Guards.

(** * The statements at work on the simulated hosts *)

(** On the quiet host the whole pipeline succeeds: the artifact is gone
    and the original path holds the migrated image. *)
Lemma original_kept_on_quiet_host :
  ToolContract Sim.t
  ∧ let out := Rev1.resizeAndExpandDisk "/data/vm1.img" "vda" 1 "40G"
                 (boot Sim.quiet "") in
    out.1 = Done None
    ∧ contents (p_world out.2) "/data/vm1.img.new" = None
    ∧ contents (p_world out.2) "/data/vm1.img"
      = Some "expanded /dev/vda1 of (vm1 root disk) into (empty qcow2 40G)".
Proof.
  split; [exact sim_contract|].
  pose proof (original_kept_until_replaced sim_contract "/data/vm1.img" "vda" 1
                "40G" (boot Sim.quiet "")) as W.
  cbv zeta in W. destruct W as (_ & _ & _ & W).
  destruct (W eq_refl) as (c & m & v & Hevs & _ & _ & _ & Hgone & Hheld).
  split; [reflexivity|]. split; [exact Hgone|].
  rewrite Hheld. vm_compute in Hevs. injection Hevs as _ <- _. reflexivity.
Defined.

Lemma rollback_on_stuck_host :
  let out := Rev1.resizeAndExpandDisk "/data/vm1.img" "vda" 1 "40G"
               (boot stuck "") in
  ∃ e,
    added (boot stuck "") out.2 !! 1%nat = Some e
    ∧ ev_argv e = ["sudo"; "virt-resize"; "--expand"; "/dev/vda1";
                   "/data/vm1.img"; "/data/vm1.img.new"]
    ∧ cr_err (ev_res e) = Some "exit status 1"
    ∧ ∃ d msg,
        added (boot stuck "") out.2 !! 2%nat = Some d
        ∧ ev_argv d = ["sudo"; "rm"; "/data/vm1.img.new"]
        ∧ exec ["sudo"; "rm"; "/data/vm1.img.new"] (ev_after e)
          = (ev_res d, ev_after d)
        ∧ p_world out.2 = ev_after d
        ∧ out.1 = Done (Some msg)
        ∧ inside "exit status 1" msg.
Proof.
  intros out.
  destruct (added (boot stuck "") out.2 !! 1%nat) as [e|] eqn:He;
    [|vm_compute in He; discriminate He].
  exists e.
  assert (Ha : ev_argv e
               = ["sudo"; "virt-resize"; "--expand"; "/dev/vda1";
                  "/data/vm1.img"; "/data/vm1.img.new"])
    by (vm_compute in He; injection He as <-; reflexivity).
  assert (Hr : cr_err (ev_res e) = Some "exit status 1")
    by (vm_compute in He; injection He as <-; reflexivity).
  split; [reflexivity|]. split; [exact Ha|]. split; [exact Hr|].
  destruct (rollback_reports_artifact "/data/vm1.img" "vda" 1 "40G"
              (boot stuck "") 1 e "exit status 1" He (or_introl Ha) Hr)
    as (d & msg & Hd & _ & Hrm & [Hex Hw] & _ & Hout & Hin & _).
  exists d, msg. rewrite Hrm in Hex. auto 10.
Defined.

(** C2: line 200 trims the whole answer of [virsh list], not each name;
    a running VM whose name is the last one printed and ends with white
    space, or the first and starts with it, is not found among the
    names: for the running VM [db ] the disk command goes on and, once
    confirmed, runs create, virt-resize and mv on its image.  The same for
    a name that ends with a no-break space. *)
Theorem running_vm_with_blank_edge_is_expanded :
  (let out := Rev1.runDiskCommand vm1Flags "db "
                (boot blankEdged ("y" +:+ LF)) in
   cr_stdout (exec Rev1.listCmd blankEdged).1
   = " web" +:+ LF +:+ "db " +:+ LF +:+ LF
   ∧ Rev1.runningVMs (" web" +:+ LF +:+ "db " +:+ LF +:+ LF) = ["web"; "db"]
   ∧ (Rev1.isVMStopped "db " (boot blankEdged "")).1 = Done true
   ∧ out.1 = Done tt
   ∧ p_stderr out.2 = ""
   ∧ Sim.argvs out.2
     = [["sudo"; "virsh"; "list"; "--name"; "--state-running"];
        ["sudo"; "qemu-img"; "create"; "-f"; "qcow2"; "-o";
         "preallocation=metadata"; "/data/vm1.img.new"; "40G"];
        ["sudo"; "virt-resize"; "--expand"; "/dev/vda1"; "/data/vm1.img";
         "/data/vm1.img.new"];
        ["sudo"; "mv"; "/data/vm1.img.new"; "/data/vm1.img"]])
  ∧ (let out := Rev1.runDiskCommand vm1Flags ("web" +:+ NBSP)
                  (boot nbspEdged ("y" +:+ LF)) in
     cr_stdout (exec Rev1.listCmd nbspEdged).1 = "web" +:+ NBSP +:+ LF +:+ LF
     ∧ Rev1.runningVMs ("web" +:+ NBSP +:+ LF +:+ LF) = ["web"]
     ∧ out.1 = Done tt
     ∧ p_stderr out.2 = ""
     ∧ Sim.argvs out.2
       = [["sudo"; "virsh"; "list"; "--name"; "--state-running"];
          ["sudo"; "qemu-img"; "create"; "-f"; "qcow2"; "-o";
           "preallocation=metadata"; "/data/vm1.img.new"; "40G"];
          ["sudo"; "virt-resize"; "--expand"; "/dev/vda1"; "/data/vm1.img";
           "/data/vm1.img.new"];
          ["sudo"; "mv"; "/data/vm1.img.new"; "/data/vm1.img"]]).
Proof. vm_compute. repeat split. Qed.

(** [web] runs on the quiet host: the disk command refuses. *)
Lemma running_vm_refused_on_quiet_host :
  (let out := Rev1.runDiskCommand vm1Flags "web" (boot Sim.quiet "") in
   "web" ∈ Rev1.runningVMs (virshNames ["web"; "db"])
   ∧ out.1 = Exited 1
   ∧ p_stderr out.2 = vmRunningText "web"
   ∧ Sim.argvs out.2 = [Rev1.listCmd])
  ∧ (let out := Rev2.runDiskCommand vm1Flags "web" (boot busyLib "") in
     out.1 = Exited 1
     ∧ p_stderr out.2 = vmRunningText "web"
     ∧ SimLib.calls out.2 = [Rev2.AskRunning "web"]).
Proof.
  assert (Hin : "web" ∈ Rev1.runningVMs (virshNames ["web"; "db"])).
  { assert (E : Rev1.runningVMs (virshNames ["web"; "db"]) = ["web"; "db"])
      by (vm_compute; reflexivity).
    rewrite E. apply elem_of_cons. by left. }
  destruct (running_vm_refused vm1Flags "web" (boot Sim.quiet "")
              (boot busyLib "")) as [W1 W2].
  split.
  - destruct (added (boot Sim.quiet "")
                (Rev1.runDiskCommand vm1Flags "web" (boot Sim.quiet "")).2
              !! 0%nat) as [e|] eqn:He; [|vm_compute in He; discriminate He].
    assert (He' := He). vm_compute in He'. injection He' as He'.
    destruct (W1 0%nat e He) as (Hexit & Herr & _);
      [by rewrite <- He'..|].
    split; [exact Hin|]. split; [exact Hexit|].
    split; [exact Herr|reflexivity].
  - destruct (added (boot busyLib "")
                (Rev2.runDiskCommand vm1Flags "web" (boot busyLib "")).2
              !! 0%nat) as [e|] eqn:He; [|vm_compute in He; discriminate He].
    assert (He' := He). vm_compute in He'. injection He' as He'.
    destruct (W2 0%nat e He) as (Hexit & Herr & _);
      [by rewrite <- He'..|].
    split; [exact Hexit|]. split; [exact Herr|reflexivity].
Defined.

(** On the deaf host the disk command ends as for a running VM. *)
Lemma failed_query_on_deaf_host :
  cr_err (exec Rev1.listCmd (p_world (boot (Ev:=Event Sim.t) deaf ""))).1
  = Some "exit status 1"
  ∧ (Rev1.isVMStopped "vm1" (boot deaf "")).1 = Done false
  ∧ let out := Rev1.runDiskCommand vm1Flags "vm1" (boot deaf "y") in
    out.1 = Exited 1
    ∧ p_stderr out.2 = vmRunningText "vm1"
    ∧ Sim.argvs out.2 = [Rev1.listCmd].
Proof.
  destruct (failed_query_counts_as_running vm1Flags "vm1" (boot deaf ""))
    as [W1 _].
  destruct (failed_query_counts_as_running vm1Flags "vm1" (boot deaf "y"))
    as [_ W2].
  split; [reflexivity|].
  split; [exact (proj1 (W1 "exit status 1" eq_refl))|].
  destruct (added (boot deaf "y")
              (Rev1.runDiskCommand vm1Flags "vm1" (boot deaf "y")).2
            !! 0%nat) as [e|] eqn:He; [|vm_compute in He; discriminate He].
  assert (He' := He). vm_compute in He'. injection He' as He'.
  destruct (W2 0%nat e "exit status 1" He) as (Hexit & Herr & _);
    [by rewrite <- He'..|].
  split; [exact Hexit|]. split; [exact Herr|reflexivity].
Defined.


(** An answer of [y] followed by a no-break space is trimmed to [y]: the
    pipeline runs. *)
Lemma padded_yes_is_taken :
  let out := Rev1.runDiskCommand vm1Flags "vm1"
               (boot Sim.quiet ("y" +:+ NBSP +:+ LF)) in
  TrimSpace ("y" +:+ NBSP +:+ LF) = "y"
  ∧ out.1 = Done tt
  ∧ Sim.argvs out.2
    = [["sudo"; "virsh"; "list"; "--name"; "--state-running"];
       ["sudo"; "qemu-img"; "create"; "-f"; "qcow2"; "-o";
        "preallocation=metadata"; "/data/vm1.img.new"; "40G"];
       ["sudo"; "virt-resize"; "--expand"; "/dev/vda1"; "/data/vm1.img";
        "/data/vm1.img.new"];
       ["sudo"; "mv"; "/data/vm1.img.new"; "/data/vm1.img"]].
Proof. vm_compute. repeat split. Qed.


(** The library of the second revision asked about a disk of another
    VM. *)
Lemma foreign_disk_refused :
  let out := Rev2.runDiskCommand (withImage vm1Flags "/data/other.img") "vm1"
               (boot SimLib.quiet "") in
  out.1 = Exited 1
  ∧ p_stderr out.2
    = "The specified disk does not belong to VM 'vm1'" +:+ LF
  ∧ SimLib.calls out.2
    = [Rev2.AskRunning "vm1"; Rev2.AskOwner "vm1" "/data/other.img"].
Proof.
  intros out.
  destruct (ownership_checked_before_resize
              (withImage vm1Flags "/data/other.img") "vm1"
              (boot Sim.quiet "") (boot SimLib.quiet "")) as (_ & W & _).
  destruct (added (boot SimLib.quiet "") out.2 !! 1%nat) as [e|] eqn:He;
    [|vm_compute in He; discriminate He].
  assert (He' := He). vm_compute in He'. injection He' as He'.
  destruct (W 1%nat e "/data/other.img" He) as (Hexit & Herr & _);
    [by rewrite <- He'..|].
  split; [exact Hexit|]. split; [exact Herr|reflexivity].
Defined.

(** C6 fails on the first revision: it starts no command that asks for
    the disks of the VM when an image is named, and runs the pipeline on
    an image that is not among them. *)
Lemma first_revision_checks_no_owner :
  let out := Rev1.runDiskCommand (withImage vm1Flags "/data/other.img") "vm1"
               (boot shared ("y" +:+ LF)) in
  ("/data/other.img" ∉ Sim.disks shared)
  ∧ out.1 = Done tt
  ∧ Sim.argvs out.2
    = [Rev1.listCmd;
       Rev1.createCmd "/data/other.img.new" "40G";
       Rev1.resizeCmd "vda" 1 "/data/other.img" "/data/other.img.new";
       Rev1.mvCmd "/data/other.img.new" "/data/other.img"]
  ∧ Sim.fs (p_world out.2) !! "/data/other.img"
    = Some "expanded /dev/vda1 of (disk of another VM) into (empty qcow2 40G)".
Proof.
  split; [|vm_compute; repeat split].
  intros Hin. apply list_elem_of_In in Hin.
  destruct Hin as [Hin|[]]. discriminate Hin.
Qed.

(** The dry run of the specification's example on the quiet host. *)
Lemma dry_run_on_quiet_host :
  Flag.dryRun (withDryRun vm1Flags) = true
  ∧ let out := Rev1.runDiskCommand (withDryRun vm1Flags) "vm1"
                 (boot Sim.quiet "") in
    out.1 = Done tt
    ∧ Sim.argvs out.2 = [Rev1.listCmd]
    ∧ p_stdout out.2
      = "Selected disk: /data/vm1.img (device: vda)" +:+ LF
        +:+ "Command: sudo qemu-img create -f qcow2 -o preallocation=metadata /data/vm1.img.new 40G"
        +:+ LF
        +:+ "Command: sudo virt-resize --expand /dev/vda1 /data/vm1.img /data/vm1.img.new"
        +:+ LF
        +:+ "Command: sudo mv /data/vm1.img.new /data/vm1.img" +:+ LF.
Proof.
  split; [reflexivity|].
  destruct (dry_run_previews_after_checks (withDryRun vm1Flags) "vm1"
              (boot Sim.quiet "") "/data/vm1.img" "vda" 1 "40G") as [_ W].
  destruct (W eq_refl) as (_ & _ & _ & [Hexit | (Hdone & _ & _ & _ & img & Himg & Hout)]).
  - vm_compute in Hexit. discriminate Hexit.
  - split; [exact Hdone|]. split; [reflexivity|].
    rewrite Hout. rewrite (Himg ltac:(vm_compute; discriminate)).
    reflexivity.
Defined.

(** C7 fails on the code: a dry run does start a command, the query for
    the running VMs, and tests its answer; for a running VM it prints no
    command line at all and ends with exit status 1. *)
Lemma dry_run_asks_the_host :
  (let out := Rev1.runDiskCommand (withDryRun vm1Flags) "vm1"
                (boot Sim.quiet "") in
   out.1 = Done tt ∧ Sim.argvs out.2 = [Rev1.listCmd])
  ∧ (let out := Rev1.runDiskCommand (withDryRun vm1Flags) "web"
                  (boot Sim.quiet "") in
     out.1 = Exited 1
     ∧ Sim.argvs out.2 = [Rev1.listCmd]
     ∧ p_stdout out.2 = "Selected disk: /data/vm1.img (device: vda)" +:+ LF
     ∧ p_stderr out.2 = vmRunningText "web").
Proof. vm_compute. repeat split. Qed.

(** No size given on the quiet host. *)
Lemma missing_size_on_quiet_host :
  Flag.size (withSize vm1Flags "") = ""
  ∧ let out := Rev1.runDiskCommand (withSize vm1Flags "") "vm1"
                 (boot Sim.quiet "") in
    out.1 = Exited 1
    ∧ p_stderr out.2
      = "Please specify the new size using the --size option" +:+ LF
    ∧ length (added (boot Sim.quiet "") out.2) = 1%nat.
Proof.
  split; [reflexivity|].
  destruct (missing_size_reported_after_queries (withSize vm1Flags "") "vm1"
              (boot Sim.quiet "") eq_refl) as (Hexit & _ & _ & _ & W).
  destruct (added (boot Sim.quiet "")
              (Rev1.runDiskCommand (withSize vm1Flags "") "vm1"
                 (boot Sim.quiet "")).2
            !! 0%nat) as [e|] eqn:He; [|vm_compute in He; discriminate He].
  assert (He' := He). vm_compute in He'. injection He' as He'.
  destruct (W 0%nat e He) as (Herr & Hlen).
  - by rewrite <- He'.
  - by rewrite <- He'.
  - rewrite <- He'. apply notListed_true. vm_compute. reflexivity.
  - split; [exact Hexit|]. split; [exact Herr|exact Hlen].
Defined.

(** C8 fails on the code: with no size given the message comes only
    after the query for the running VMs was started and answered. *)
Lemma missing_size_comes_after_query :
  let out := Rev1.runDiskCommand (withSize vm1Flags "") "vm1"
               (boot Sim.quiet "") in
  Flag.size (withSize vm1Flags "") = ""
  ∧ out.1 = Exited 1
  ∧ Sim.argvs out.2 = [["sudo"; "virsh"; "list"; "--name"; "--state-running"]]
  ∧ p_stderr out.2
    = "Please specify the new size using the --size option" +:+ LF.
Proof. vm_compute. repeat split. Qed.

(** Both mutators on the quiet host, and with the second call failing. *)
(** On the quiet host the three steps run in order, each on the host
    the step before it left, and nothing else runs; where [qemu-img
    create] fails it is the only command. *)
Lemma three_steps_on_quiet_host :
  (let out := Rev1.resizeAndExpandDisk "/data/vm1.img" "vda" 1 "40G"
                (boot Sim.quiet "") in
   ∃ c m v,
     added (boot Sim.quiet "") out.2 = [c; m; v]
     ∧ ev_argv c = ["sudo"; "qemu-img"; "create"; "-f"; "qcow2"; "-o";
                    "preallocation=metadata"; "/data/vm1.img.new"; "40G"]
     ∧ ev_argv m = ["sudo"; "virt-resize"; "--expand"; "/dev/vda1";
                    "/data/vm1.img"; "/data/vm1.img.new"]
     ∧ ev_argv v = ["sudo"; "mv"; "/data/vm1.img.new"; "/data/vm1.img"]
     ∧ exec (ev_argv c) Sim.quiet = (ev_res c, ev_after c)
     ∧ exec (ev_argv m) (ev_after c) = (ev_res m, ev_after m)
     ∧ exec (ev_argv v) (ev_after m) = (ev_res v, ev_after v)
     ∧ p_world out.2 = ev_after v
     ∧ out.1 = Done None)
  ∧ (let out := Rev1.resizeAndExpandDisk "/data/vm1.img" "vda" 1 "40G"
                  (boot full "") in
     ∃ c,
       added (boot full "") out.2 = [c]
       ∧ out.1 = Done (Some ("failed to create new image: exit status 1"
                             +:+ ", output: simulated failure"))).
Proof.
  split.
  - pose proof (steps_strictly_sequential "/data/vm1.img" "vda" 1 "40G"
                  (boot Sim.quiet "")) as W.
    cbv zeta in W. destruct W as (Hans & (c & rest & Hevs & Hc & Hrest) & _).
    assert (Hok : cr_err (ev_res c) = None)
      by (vm_compute in Hevs; injection Hevs as <- _; reflexivity).
    rewrite Hok in Hrest. destruct Hrest as (m & rest' & -> & Hm & Hrest).
    assert (Hok' : cr_err (ev_res m) = None)
      by (vm_compute in Hevs; injection Hevs as _ <- _; reflexivity).
    rewrite Hok' in Hrest. destruct Hrest as (v & rest'' & -> & Hv & Hrest).
    assert (Hok'' : cr_err (ev_res v) = None)
      by (vm_compute in Hevs; injection Hevs as _ _ <- _; reflexivity).
    rewrite Hok'' in Hrest. destruct Hrest as [-> Hout].
    rewrite Hevs in Hans. destruct Hans as (Ac & Am & Av & Aw).
    exists c, m, v. repeat split; assumption.
  - pose proof (steps_strictly_sequential "/data/vm1.img" "vda" 1 "40G"
                  (boot full "")) as W.
    cbv zeta in W. destruct W as (_ & (c & rest & Hevs & _ & Hrest) & _).
    assert (Hko : cr_err (ev_res c) = Some "exit status 1")
      by (vm_compute in Hevs; injection Hevs as <- _; reflexivity).
    assert (Hco : cr_combined (ev_res c) = "simulated failure")
      by (vm_compute in Hevs; injection Hevs as <- _; reflexivity).
    rewrite Hko in Hrest. destruct Hrest as [-> Hout].
    exists c. split; [exact Hevs|]. rewrite Hout, Hco. reflexivity.
Defined.

(** Where the maximum is refused nothing else is started; where the
    maximum is taken and the current value refused, both were started
    and the error names the second. *)
Lemma maximum_then_current_on_failing_hosts :
  (let cpu := Rev1.changeCPUCount "vm1" 4 (boot capped "") in
   Sim.argvs cpu.2
   = [["sudo"; "virsh"; "setvcpus"; "vm1"; "4"; "--config"; "--maximum"]]
   ∧ cpu.1 = Done (Some "failed to set maximum CPU count: exit status 1"))
  ∧ (let cpu := Rev1.changeCPUCount "vm1" 4 (boot lopsided "") in
     Sim.argvs cpu.2
     = [["sudo"; "virsh"; "setvcpus"; "vm1"; "4"; "--config"; "--maximum"];
        ["sudo"; "virsh"; "setvcpus"; "vm1"; "4"; "--config"]]
     ∧ cpu.1 = Done (Some "failed to set current CPU count: exit status 1"))
  ∧ (let mem := Rev1.changeMemorySize "vm1" "8G" (boot lopsidedMemory "") in
     Sim.argvs mem.2
     = [["sudo"; "virsh"; "setmaxmem"; "vm1"; "8G"; "--config"];
        ["sudo"; "virsh"; "setmem"; "vm1"; "8G"; "--config"]]
     ∧ mem.1 = Done (Some ("failed to set current memory: exit status 1"
                           +:+ ", output: simulated failure")))
  ∧ (let cpu := Rev1.changeCPUCount "vm1" 4 (boot Sim.quiet "") in
     Sim.argvs cpu.2
     = [["sudo"; "virsh"; "setvcpus"; "vm1"; "4"; "--config"; "--maximum"];
        ["sudo"; "virsh"; "setvcpus"; "vm1"; "4"; "--config"]]
     ∧ cpu.1 = Done None).
Proof.
  split; [|split; [|split]].
  - pose proof (maximum_then_current "vm1" 4 "8G" (boot capped "")) as W.
    cbv zeta in W. destruct W as [(_ & _ & _ & mx & Hmx & Ha & Hrest) _].
    assert (Hko : cr_err (ev_res mx) = Some "exit status 1")
      by (vm_compute in Hmx; injection Hmx as <-; reflexivity).
    rewrite Hko in Hrest. destruct Hrest as [Hevs Hout].
    split; [|exact Hout].
    change (Sim.argvs (Rev1.changeCPUCount "vm1" 4 (boot capped "")).2)
      with (map ev_argv (added (boot capped "")
                           (Rev1.changeCPUCount "vm1" 4 (boot capped "")).2)).
    rewrite Hevs. simpl. rewrite Ha. reflexivity.
  - pose proof (maximum_then_current "vm1" 4 "8G" (boot lopsided "")) as W.
    cbv zeta in W. destruct W as [(_ & _ & _ & mx & Hmx & Ha & Hrest) _].
    assert (Hok : cr_err (ev_res mx) = None)
      by (vm_compute in Hmx; injection Hmx as <-; reflexivity).
    rewrite Hok in Hrest. destruct Hrest as (cu & Hevs & Hcu & Hout).
    assert (Hko : cr_err (ev_res cu) = Some "exit status 1")
      by (vm_compute in Hevs; injection Hevs as _ <-; reflexivity).
    rewrite Hko in Hout. split; [|exact Hout].
    change (Sim.argvs (Rev1.changeCPUCount "vm1" 4 (boot lopsided "")).2)
      with (map ev_argv (added (boot lopsided "")
                           (Rev1.changeCPUCount "vm1" 4 (boot lopsided "")).2)).
    rewrite Hevs. simpl. rewrite Ha, Hcu. reflexivity.
  - pose proof (maximum_then_current "vm1" 4 "8G" (boot lopsidedMemory ""))
      as W.
    cbv zeta in W. destruct W as [_ (_ & _ & _ & mx & Hmx & Ha & Hrest)].
    assert (Hok : cr_err (ev_res mx) = None)
      by (vm_compute in Hmx; injection Hmx as <-; reflexivity).
    rewrite Hok in Hrest. destruct Hrest as (cu & Hevs & Hcu & Hout).
    assert (Hko : cr_err (ev_res cu) = Some "exit status 1")
      by (vm_compute in Hevs; injection Hevs as _ <-; reflexivity).
    assert (Hco : cr_combined (ev_res cu) = "simulated failure")
      by (vm_compute in Hevs; injection Hevs as _ <-; reflexivity).
    rewrite Hko, Hco in Hout. split; [|exact Hout].
    change (Sim.argvs (Rev1.changeMemorySize "vm1" "8G"
                         (boot lopsidedMemory "")).2)
      with (map ev_argv
              (added (boot lopsidedMemory "")
                 (Rev1.changeMemorySize "vm1" "8G" (boot lopsidedMemory "")).2)).
    rewrite Hevs. simpl. rewrite Ha, Hcu. reflexivity.
  - pose proof (maximum_then_current "vm1" 4 "8G" (boot Sim.quiet "")) as W.
    cbv zeta in W. destruct W as [(_ & _ & _ & mx & Hmx & Ha & Hrest) _].
    assert (Hok : cr_err (ev_res mx) = None)
      by (vm_compute in Hmx; injection Hmx as <-; reflexivity).
    rewrite Hok in Hrest. destruct Hrest as (cu & Hevs & Hcu & Hout).
    assert (Hok' : cr_err (ev_res cu) = None)
      by (vm_compute in Hevs; injection Hevs as _ <-; reflexivity).
    rewrite Hok' in Hout. split; [|exact Hout].
    change (Sim.argvs (Rev1.changeCPUCount "vm1" 4 (boot Sim.quiet "")).2)
      with (map ev_argv (added (boot Sim.quiet "")
                           (Rev1.changeCPUCount "vm1" 4 (boot Sim.quiet "")).2)).
    rewrite Hevs. simpl. rewrite Ha, Hcu. reflexivity.
Defined.

(** * Further properties *)

(** ** The answer of [virsh list] read back *)

Lemma isSpace2_LF_r (a : ascii) : isSpace2 a (ascii_of_nat 10) = false.
Proof. apply bool_decide_eq_false. vm_compute. lia. Qed.

Lemma isSpace2_LF_l (b : ascii) : isSpace2 (ascii_of_nat 10) b = false.
Proof. apply bool_decide_eq_false. vm_compute. lia. Qed.

Lemma isSpace3_LF_1 (b c : ascii) : isSpace3 (ascii_of_nat 10) b c = false.
Proof. apply bool_decide_eq_false. vm_compute. lia. Qed.

Lemma isSpace3_LF_2 (a c : ascii) : isSpace3 a (ascii_of_nat 10) c = false.
Proof. apply bool_decide_eq_false. vm_compute. lia. Qed.

Lemma isSpace3_LF_3 (a b : ascii) : isSpace3 a b (ascii_of_nat 10) = false.
Proof. apply bool_decide_eq_false. vm_compute. lia. Qed.

Lemma spaceWidth_line (r t : string) :
  r ≠ "" → spaceWidth r = 0%nat → spaceWidth (r +:+ LF +:+ t) = 0%nat.
Proof.
  destruct r as [|a [|b [|c r]]]; [done|..]; intros _ Hr.
  - change (String a "" +:+ LF +:+ t) with (String a (String (ascii_of_nat 10) t)).
    unfold spaceWidth in *. destruct (asciiSpace a); [done|].
    rewrite isSpace2_LF_r. destruct t; [done|]. by rewrite isSpace3_LF_2.
  - change (String a (String b "") +:+ LF +:+ t)
      with (String a (String b (String (ascii_of_nat 10) t))).
    unfold spaceWidth in *. destruct (asciiSpace a); [done|].
    destruct (isSpace2 a b); [done|]. by rewrite isSpace3_LF_3.
  - exact Hr.
Qed.

Lemma spaceWidthBack_line (r t : string) :
  r ≠ "" → spaceWidthBack r = 0%nat → spaceWidthBack (r +:+ LF +:+ t) = 0%nat.
Proof.
  destruct r as [|a [|b [|c r]]]; [done|..]; intros _ Hr.
  - change (String a "" +:+ LF +:+ t) with (String a (String (ascii_of_nat 10) t)).
    unfold spaceWidthBack in *. destruct (asciiSpace a); [done|].
    rewrite isSpace2_LF_l. destruct t; [done|]. by rewrite isSpace3_LF_2.
  - change (String a (String b "") +:+ LF +:+ t)
      with (String a (String b (String (ascii_of_nat 10) t))).
    unfold spaceWidthBack in *. destruct (asciiSpace a); [done|].
    destruct (isSpace2 b a); [done|]. by rewrite isSpace3_LF_1.
  - exact Hr.
Qed.

Lemma reverse_cons (c : ascii) (s : string) :
  reverse (String c s) = reverse s +:+ String c "".
Proof.
  unfold reverse. simpl.
  generalize (rev (list_ascii_of_string s)). intros l.
  induction l as [|x l IH]; [reflexivity|].
  simpl. rewrite append_cons. by rewrite IH.
Qed.

Lemma reverse_app (a b : string) :
  reverse (a +:+ b) = reverse b +:+ reverse a.
Proof.
  induction a as [|c a IH].
  - by rewrite append_nil_l, append_nil_r.
  - by rewrite append_cons, !reverse_cons, IH, append_assoc.
Qed.

Lemma reverse_involutive (s : string) : reverse (reverse s) = s.
Proof.
  induction s as [|c s IH]; [reflexivity|].
  by rewrite reverse_cons, reverse_app, IH.
Qed.

Lemma reverse_not_nil (s : string) : s ≠ "" → reverse s ≠ "".
Proof.
  intros Hs Hr. apply Hs. by rewrite <- (reverse_involutive s), Hr.
Qed.

Lemma trimLeft_plain (x : string) : startsPlain x → trimLeft x = x.
Proof.
  intros [Hx Hw]. destruct x as [|c x]; [done|].
  change (trimLeft (String c x))
    with (match spaceWidth (String c x) with
          | O => String c x
          | S k => dropSpaces spaceWidth k x
          end).
  by rewrite Hw.
Qed.

(** The blank line [virsh list] ends with is trimmed, and nothing of the
    name before it. *)
Lemma trimRight_lines (y : string) :
  endsPlain y → trimRight (y +:+ LF +:+ LF) = y.
Proof.
  intros [Hy Hw]. unfold trimRight.
  rewrite <- append_assoc, !reverse_app.
  change (reverse LF) with LF. apply reverse_not_nil in Hy.
  destruct (reverse y) as [|c r] eqn:Hr; [done|].
  change (LF +:+ LF +:+ String c r)
    with (String (ascii_of_nat 10) (String (ascii_of_nat 10) (String c r))).
  change (dropSpaces spaceWidthBack 0
            (String (ascii_of_nat 10) (String (ascii_of_nat 10) (String c r))))
    with (match spaceWidthBack (String c r) with
          | O => String c r
          | S k => dropSpaces spaceWidthBack k r
          end).
  rewrite Hw, <- Hr. apply reverse_involutive.
Qed.

Lemma splitGo_last (vm cur : string) :
  mentions (ascii_of_nat 10) vm = false →
  splitGo LF 0 cur vm = [cur +:+ vm].
Proof.
  revert cur. induction vm as [|c vm IH]; intros cur Hvm.
  - by rewrite append_nil_r.
  - simpl in Hvm. apply orb_false_iff in Hvm as [Hc Hvm].
    apply bool_decide_eq_false in Hc.
    rewrite splitGo_LF, bool_decide_eq_false_2 by done.
    rewrite IH by done. by rewrite append_assoc.
Qed.

Lemma splitGo_next (vm v cur : string) :
  mentions (ascii_of_nat 10) vm = false →
  splitGo LF 0 cur (vm +:+ LF +:+ v) = (cur +:+ vm) :: splitGo LF 0 "" v.
Proof.
  revert cur. induction vm as [|c vm IH]; intros cur Hvm.
  - rewrite append_nil_r.
    change ("" +:+ LF +:+ v) with (String (ascii_of_nat 10) v).
    by rewrite splitGo_LF, bool_decide_eq_true_2.
  - simpl in Hvm. apply orb_false_iff in Hvm as [Hc Hvm].
    apply bool_decide_eq_false in Hc.
    rewrite append_cons, splitGo_LF, bool_decide_eq_false_2 by done.
    rewrite IH by done. by rewrite append_assoc.
Qed.

Lemma Split_Join (names : list string) :
  names ≠ [] →
  Forall (λ n, mentions (ascii_of_nat 10) n = false) names →
  Split (Join names LF) LF = names.
Proof.
  intros Hne Hall. unfold Split. rewrite bool_decide_eq_false_2 by done.
  induction Hall as [|n rest Hn Hrest IH]; [done|].
  destruct rest as [|n' rest].
  - simpl. by rewrite splitGo_last.
  - change (Join (n :: n' :: rest) LF)
      with (n +:+ LF +:+ Join (n' :: rest) LF).
    rewrite splitGo_next by done. rewrite IH by done. reflexivity.
Qed.

Lemma virshNames_Join (names : list string) :
  names ≠ [] → virshNames names = Join names LF +:+ LF +:+ LF.
Proof.
  induction names as [|n rest IH]; [done|]. intros _.
  destruct rest as [|n' rest]; [reflexivity|].
  change (virshNames (n :: n' :: rest))
    with (n +:+ LF +:+ virshNames (n' :: rest)).
  rewrite IH by done.
  change (Join (n :: n' :: rest) LF)
    with (n +:+ LF +:+ Join (n' :: rest) LF).
  by rewrite !append_assoc.
Qed.

Lemma Join_startsPlain (n : string) (rest : list string) (t : string) :
  startsPlain n → startsPlain (Join (n :: rest) LF +:+ LF +:+ t).
Proof.
  intros [Hn Hw]. destruct rest as [|n' rest].
  - split; [by destruct n|]. by apply spaceWidth_line.
  - change (Join (n :: n' :: rest) LF)
      with (n +:+ LF +:+ Join (n' :: rest) LF).
    rewrite !append_assoc. split; [by destruct n|]. by apply spaceWidth_line.
Qed.

Lemma Join_endsPlain (names : list string) :
  names ≠ [] → Forall endsPlain names → endsPlain (Join names LF).
Proof.
  intros Hne Hall. induction Hall as [|n rest Hn Hrest IH]; [done|].
  destruct rest as [|n' rest]; [exact Hn|].
  destruct (IH ltac:(done)) as [Hj Hw].
  change (Join (n :: n' :: rest) LF)
    with (n +:+ LF +:+ Join (n' :: rest) LF).
  split; [destruct Hn as [Hn _]; by destruct n|].
  rewrite !reverse_app. change (reverse LF) with LF. rewrite append_assoc.
  apply spaceWidthBack_line; [by apply reverse_not_nil|done].
Qed.

(** What [virsh list --name] prints for plain names is read back
    exactly: the names, in order; when no VM runs the program reads one
    name, the empty one. *)
Lemma running_names_read_back (names : list string) :
  Forall plainName names →
  Rev1.runningVMs (virshNames names)
  = match names with [] => [""] | _ => names end.
Proof.
  intros Hall. destruct names as [|n rest] eqn:Hn; [reflexivity|].
  rewrite <- Hn in *. assert (Hne : names ≠ []) by (by rewrite Hn).
  unfold Rev1.runningVMs, TrimSpace.
  rewrite virshNames_Join by done.
  rewrite trimLeft_plain.
  2:{ rewrite Hn. apply Join_startsPlain. rewrite Hn in Hall.
      by apply Forall_cons in Hall as [(? & _) _]. }
  rewrite trimRight_lines.
  2:{ apply Join_endsPlain; [done|].
      eapply Forall_impl; [exact Hall|]. by intros ? (_ & ? & _). }
  apply Split_Join; [done|].
  eapply Forall_impl; [exact Hall|]. by intros ? (_ & _ & ?).
Qed.

Lemma append_eq_self (s x : string) : s +:+ x = s → x = "".
Proof.
  induction s as [|c s IH]; [done|].
  rewrite append_cons. intros [= E]. auto.
Qed.

Lemma literal_not_nil (c : ascii) (a b : string) : String c a +:+ b ≠ "".
Proof. rewrite append_cons. discriminate. Qed.

Ltac stderr_grew :=
  let E := fresh "E" in
  intros E; apply append_eq_self in E;
  first [discriminate E | exact (literal_not_nil _ _ _ E)].

(** As [disk_cases], for statements that name a second run from the same
    process: an answer already split on is used again. *)
Ltac recall_answer :=
  cbn [fst snd cr_err cr_stdout cr_combined p_world p_trace
       p_stdout p_stderr p_stdin negb Devices_Disks];
  match goal with
  | E : exec ?a ?w = _ |- context [exec ?a ?w] => rewrite E
  | U : xmlUnmarshal ?s = _ |- context [xmlUnmarshal ?s] => rewrite U
  end.

Ltac disk_cases_again :=
  match goal with
  | |- context [Rev1.runDiskCommand ?fl ?vm ?p] =>
      let r := fresh "r" in
      let p' := fresh "p'" in
      let Hrun := fresh "Hrun" in
      destruct (Rev1.runDiskCommand fl vm p) as [r p'] eqn:Hrun;
      revert Hrun;
      unfold Rev1.runDiskCommand; unfold_prog; unfold readLine;
      repeat first [recall_answer | disk_step];
      cbn [fst snd cr_err cr_stdout cr_combined p_world p_trace
           p_stdout p_stderr p_stdin negb Devices_Disks];
      intros [= <- <-]
  end;
  cbn [fst snd cr_err cr_stdout cr_combined p_world p_trace
       p_stdout p_stderr p_stdin negb Devices_Disks];
  repeat rewrite <- (assoc_L (++));
  cbn [app];
  repeat erewrite added_app by reflexivity.

Section MoreGuards.
Context {World : Type} `{Host World}.

(** X2: [getVMDisks] never answers with an empty list, so the disk
    command's own test for no disks never fires: without the image flag,
    every failure to find the disks, also that of a VM without disks, ends
    the run with exit status 1 and the message that the disk information
    could not be got, followed by the error of [getVMDisks]; only the
    inventory command was started. *)
Theorem inventory_failure_reported
    (fl : Flag.t) (vmName : string) (p : Proc World (Event World)) :
  (∀ disks, (Rev1.getVMDisks vmName p).1 = Done (Ok disks) → disks ≠ [])
  ∧ (∀ err,
       (Rev1.getVMDisks vmName p).1 = Done (Err err) →
       Flag.imagePath fl = "" →
       (Rev1.runDiskCommand fl vmName p).1 = Exited 1
       ∧ p_stderr (Rev1.runDiskCommand fl vmName p).2
         = p_stderr p +:+ "Failed to get disk information for VM '"
           +:+ vmName +:+ "': " +:+ err +:+ LF
       ∧ p_stdout (Rev1.runDiskCommand fl vmName p).2 = p_stdout p
       ∧ added p (Rev1.runDiskCommand fl vmName p).2
         = added p (Rev1.getVMDisks vmName p).2).
Proof.
  split.
  - intros disks. unfold_prog.
    destruct (exec (Rev1.dumpxmlCmd vmName) (p_world p)) as [[[e|] so co] w];
      cbn [fst snd cr_err cr_stdout]; [discriminate|].
    destruct (xmlUnmarshal _) as [[ds]|?]; [|discriminate].
    cbn [Devices_Disks]. case_bool_decide as Hlen; [discriminate|].
    intros [= <-]. by destruct ds.
  - intros err. disk_cases_again; intros Herr Himage; try contradiction.
    all: try discriminate Herr.
    all: injection Herr as <-.
    all: repeat split; reflexivity.
Qed.

(** X3: every command of the pipeline that the disk command starts acts
    on one image and its [.new] sibling: the image named by the flag, or,
    without the flag, the file of the first disk [getVMDisks] returned. *)
Theorem pipeline_acts_on_selected_image
    (fl : Flag.t) (vmName : string) (p : Proc World (Event World))
    (i : nat) (e : Event World) :
  added p (Rev1.runDiskCommand fl vmName p).2 !! i = Some e →
  pipelineTool (ev_argv e) = true →
  ∃ f, ev_argv e ∈ pipelineOn fl f
       ∧ (Flag.imagePath fl ≠ "" → f = Flag.imagePath fl)
       ∧ (Flag.imagePath fl = "" →
          ∃ d rest, (Rev1.getVMDisks vmName p).1 = Done (Ok (d :: rest))
                    ∧ f = Source_File d).
Proof.
  disk_cases_again; intros Hi Htool.
  all: positions Hi; try discriminate Htool.
  all: lazymatch goal with
       | |- context [Rev1.createCmd (?f +:+ ".new") _] => exists f
       | |- context [Rev1.resizeCmd _ _ ?f _] => exists f
       | |- context [Rev1.mvCmd _ ?f] => exists f
       | |- context [Rev1.rmCmd (?f +:+ ".new")] => exists f
       end.
  all: split; [unfold pipelineOn; cbn [ev_argv]; set_solver|].
  all: split; [first [contradiction | reflexivity]|].
  all: first [contradiction | intros _; eexists _, _; split; reflexivity].
Qed.

(** X4: the disk command reports success only after create, virt-resize
    and mv on the selected image, the last three commands, were all
    answered by the host without error, only queries before them; and
    every failed command of the pipeline or of its rollback ends the run
    with exit status 1, its error text on standard error. *)
Theorem success_only_after_whole_pipeline
    (fl : Flag.t) (vmName : string) (p : Proc World (Event World)) :
  Flag.dryRun fl = false →
  ((Rev1.runDiskCommand fl vmName p).1 = Done tt →
   ∃ pre c m v f,
     added p (Rev1.runDiskCommand fl vmName p).2 = pre ++ [c; m; v]
     ∧ Forall (λ e, isQuery vmName (ev_argv e)) pre
     ∧ ev_argv c = ["sudo"; "qemu-img"; "create"; "-f"; "qcow2"; "-o";
                    "preallocation=metadata"; f +:+ ".new"; Flag.size fl]
     ∧ ev_argv m = ["sudo"; "virt-resize"; "--expand";
                    "/dev/" +:+ Flag.device fl +:+ fmt_d (Flag.partition fl);
                    f; f +:+ ".new"]
     ∧ ev_argv v = ["sudo"; "mv"; f +:+ ".new"; f]
     ∧ (Flag.imagePath fl ≠ "" → f = Flag.imagePath fl)
     ∧ (Flag.imagePath fl = "" →
        ∃ d rest, (Rev1.getVMDisks vmName p).1 = Done (Ok (d :: rest))
                  ∧ f = Source_File d)
     ∧ answered (p_world p) (pre ++ [c; m; v])
         (p_world (Rev1.runDiskCommand fl vmName p).2)
     ∧ cr_err (ev_res c) = None ∧ cr_err (ev_res m) = None
     ∧ cr_err (ev_res v) = None
     ∧ endsWith ("Disk expansion completed successfully." +:+ LF)
         (p_stdout (Rev1.runDiskCommand fl vmName p).2)
     ∧ p_stderr (Rev1.runDiskCommand fl vmName p).2 = p_stderr p)
  ∧ (∀ i e err,
       added p (Rev1.runDiskCommand fl vmName p).2 !! i = Some e →
       pipelineTool (ev_argv e) = true →
       cr_err (ev_res e) = Some err →
       (Rev1.runDiskCommand fl vmName p).1 = Exited 1
       ∧ ∃ msg,
           p_stderr (Rev1.runDiskCommand fl vmName p).2
           = p_stderr p +:+ "Failed to resize and expand disk: " +:+ msg
             +:+ LF
           ∧ inside err msg).
Proof.
  intros Hdry. disk_cases_again; try congruence.
  all: split; [try discriminate|].
  all: try (intros _;
            lazymatch goal with
            | |- context [[?a; ?b; ?c; ?m; ?v]] => exists [a; b]
            | |- context [[?a; ?c; ?m; ?v]] => exists [a]
            end;
            eexists _, _, _;
            lazymatch goal with
            | |- context [Rev1.mvCmd _ ?f] => exists f
            end;
            split; [reflexivity|];
            split; [only_queries|];
            split; [reflexivity|]; split; [reflexivity|];
            split; [reflexivity|];
            split; [first [contradiction | reflexivity]|];
            split; [first [contradiction
                          | intros _; eexists _, _; split; reflexivity]|];
            split; [host_answers|];
            repeat split; try reflexivity; eexists; reflexivity).
  all: intros i ev er Hi Htool Herr.
  all: positions Hi; try discriminate Htool; try discriminate Herr.
  all: simpl in Herr; simplify_eq.
  all: split; [reflexivity|]; eexists; split; [reflexivity|].
  all: auto 12 with texts.
Qed.

(** X5: the disk command ends in one of three ways, and with exit status
    1 exactly when it wrote to standard error; exit status 0 is only the
    cancelled run. *)
Theorem exit_one_iff_stderr
    (fl : Flag.t) (vmName : string) (p : Proc World (Event World)) :
  ((Rev1.runDiskCommand fl vmName p).1 = Done tt
   ∨ (Rev1.runDiskCommand fl vmName p).1 = Exited 0
   ∨ (Rev1.runDiskCommand fl vmName p).1 = Exited 1)
  ∧ ((Rev1.runDiskCommand fl vmName p).1 = Exited 1
     ↔ p_stderr (Rev1.runDiskCommand fl vmName p).2 ≠ p_stderr p)
  ∧ ((Rev1.runDiskCommand fl vmName p).1 = Exited 0 →
     Flag.dryRun fl = false
     ∧ endsWith ("Operation cancelled." +:+ LF)
         (p_stdout (Rev1.runDiskCommand fl vmName p).2)).
Proof.
  disk_cases_again.
  all: split; [auto|].
  all: split; [|first [discriminate
                      | intros _; split; [done|]; eexists; reflexivity]].
  all: split; [first [discriminate | intros _; stderr_grew]|].
  all: first [done | intros Hne; by destruct Hne].
Qed.

(** X6: no command is started twice in a run of the disk command, and a
    run starts at most six. *)
Theorem no_command_started_twice
    (fl : Flag.t) (vmName : string) (p : Proc World (Event World)) :
  NoDup (map ev_argv (added p (Rev1.runDiskCommand fl vmName p).2))
  ∧ (length (added p (Rev1.runDiskCommand fl vmName p).2) ≤ 6)%nat.
Proof.
  disk_cases.
  all: split; [|simpl; lia].
  all: cbn [map ev_argv].
  all: repeat (constructor;
               [let Hin := fresh "Hin" in
                intros Hin;
                repeat (apply elem_of_cons in Hin as [Hin|Hin];
                        [discriminate Hin|]);
                by apply elem_of_nil in Hin|]).
  all: constructor.
Qed.

End MoreGuards.

Section Rollback.
Context {World : Type} `{Host World} `{Images World}.
Hypothesis contract : ToolContract World.
Hypothesis cleanup : CleanupContract World.

(** X7: when the deletion of the artifact succeeds, nothing is left under
    [imagePath.new] at the end of the run, an error is returned, and, the
    failed step being the migration, the original holds what it held
    before the run. *)
Theorem rollback_leaves_no_artifact
    (imagePath device : string) (partition : Z) (newSize : string)
    (p : Proc World (Event World)) (i : nat) (d : Event World) :
  added p (Rev1.resizeAndExpandDisk imagePath device partition newSize p).2
    !! i = Some d →
  ev_argv d = Rev1.rmCmd (imagePath +:+ ".new") →
  cr_err (ev_res d) = None →
  contents
    (p_world (Rev1.resizeAndExpandDisk imagePath device partition newSize p).2)
    (imagePath +:+ ".new") = None
  ∧ (∃ msg,
       (Rev1.resizeAndExpandDisk imagePath device partition newSize p).1
       = Done (Some msg))
  ∧ (i = 2%nat →
     contents
       (p_world
          (Rev1.resizeAndExpandDisk imagePath device partition newSize p).2)
       imagePath
     = contents (p_world p) imagePath).
Proof.
  pose proof (new_path_differs imagePath) as Hnew.
  unfold_prog.
  repeat answer_step; trace_shape; intros Hi Hd Hok.
  all: positions Hi; simpl in Hd, Hok; try discriminate Hd;
    try discriminate Hok.
  all: cbn [fst snd p_world].
  all: match goal with
       | E : exec (Rev1.rmCmd ?q) ?w0 = _ |- _ =>
           pose proof (rm_removes World cleanup q w0) as Hrm;
           rewrite E in Hrm; specialize (Hrm eq_refl); cbn [snd] in Hrm
       end.
  all: split; [exact Hrm|]; split; [eexists; reflexivity|].
  all: try discriminate.
  intros _.
  repeat match goal with
         | E : exec (Rev1.createCmd _ _) _ = _ |- _ =>
             learn_hyp (create_keeps contract _ _ _ _ _ imagePath E Hnew)
         | E : exec (Rev1.resizeCmd _ _ _ _) _ = _ |- _ =>
             learn_hyp (resize_keeps contract _ _ _ _ _ _ _ imagePath E Hnew)
         | E : exec (Rev1.rmCmd _) _ = _ |- _ =>
             learn_hyp (rm_keeps contract _ _ _ _ imagePath E Hnew)
         end.
  congruence.
Qed.

End Rollback.

Lemma sim_cleanup : CleanupContract Sim.t.
Proof.
  split. intros p w. sim_answer. intros _. by rewrite lookup_delete_eq.
Qed.

Section Helpers.
Context {World : Type} `{Host World}.

Lemma notListed_decides (vmName : string) (vms : list string) :
  Rev1.notListed vmName vms = bool_decide (vmName ∉ vms).
Proof.
  destruct (Rev1.notListed vmName vms) eqn:L; symmetry.
  - apply bool_decide_eq_true. by apply notListed_true.
  - apply bool_decide_eq_false. apply notListed_false in L. tauto.
Qed.

(** X1: on an answer of [virsh list --name] for names that neither start
    nor end with a white space rune and hold no line feed, [isVMStopped]
    answers true exactly for the names that were not printed; with no VM
    running it still refuses the empty name. *)
Theorem stopped_iff_not_printed
    (vmName : string) (p : Proc World (Event World)) (names : list string) :
  Forall plainName names →
  cr_err (exec Rev1.listCmd (p_world p)).1 = None →
  cr_stdout (exec Rev1.listCmd (p_world p)).1 = virshNames names →
  (vmName ≠ "" →
   (Rev1.isVMStopped vmName p).1 = Done (bool_decide (vmName ∉ names)))
  ∧ (names = [] → vmName = "" →
     (Rev1.isVMStopped vmName p).1 = Done false)
  ∧ p_stdout (Rev1.isVMStopped vmName p).2 = p_stdout p.
Proof.
  intros Hall. unfold_prog.
  destruct (exec Rev1.listCmd (p_world p)) as [[[e|] so co] w];
    simpl; [discriminate|].
  intros _ ->. rewrite running_names_read_back by done.
  rewrite notListed_decides. split; [|split; [|reflexivity]].
  - intros Hvm. destruct names; [|reflexivity].
    assert (Hone : vmName ∉ [""]).
    { intros Hin. by apply list_elem_of_singleton in Hin. }
    rewrite (bool_decide_eq_true_2 _ Hone).
    by rewrite (bool_decide_eq_true_2 _ (not_elem_of_nil vmName)).
  - intros -> ->. reflexivity.
Qed.

(** X8: the functions the commands are built from always return to their
    caller: none of them ends the process, writes to standard error or
    reads standard input. *)
Theorem helpers_return_quietly
    (vmName memorySize imagePath device newSize : string)
    (cpuCount partition : Z) (p : Proc World (Event World)) :
  ((∃ r, (Rev1.getVMDisks vmName p).1 = Done r)
   ∧ p_stderr (Rev1.getVMDisks vmName p).2 = p_stderr p
   ∧ p_stdin (Rev1.getVMDisks vmName p).2 = p_stdin p)
  ∧ ((∃ r, (Rev1.isVMStopped vmName p).1 = Done r)
     ∧ p_stderr (Rev1.isVMStopped vmName p).2 = p_stderr p
     ∧ p_stdin (Rev1.isVMStopped vmName p).2 = p_stdin p)
  ∧ ((∃ r, (Rev1.resizeAndExpandDisk imagePath device partition newSize p).1
           = Done r)
     ∧ p_stderr (Rev1.resizeAndExpandDisk imagePath device partition
                   newSize p).2 = p_stderr p
     ∧ p_stdin (Rev1.resizeAndExpandDisk imagePath device partition
                  newSize p).2 = p_stdin p)
  ∧ ((∃ r, (Rev1.changeCPUCount vmName cpuCount p).1 = Done r)
     ∧ p_stderr (Rev1.changeCPUCount vmName cpuCount p).2 = p_stderr p
     ∧ p_stdin (Rev1.changeCPUCount vmName cpuCount p).2 = p_stdin p)
  ∧ ((∃ r, (Rev1.changeMemorySize vmName memorySize p).1 = Done r)
     ∧ p_stderr (Rev1.changeMemorySize vmName memorySize p).2 = p_stderr p
     ∧ p_stdin (Rev1.changeMemorySize vmName memorySize p).2 = p_stdin p).
Proof.
  repeat apply conj.
  all: unfold_prog; repeat answer_step; simpl;
    repeat case_match; simpl;
    first [reflexivity | eexists; reflexivity].
Qed.

End Helpers.

Ltac texts_differ :=
  let E := fresh "E" in
  intros E; apply (inj (String.app _)) in E; discriminate E.

Ltac lib_cases_quiet :=
  match goal with
  | |- context [Rev2.runDiskCommand ?fl ?vm ?q] =>
      let r := fresh "r" in
      let q' := fresh "q'" in
      let Hrun := fresh "Hrun" in
      destruct (Rev2.runDiskCommand fl vm q) as [r q'] eqn:Hrun;
      revert Hrun;
      unfold Rev2.runDiskCommand, Rev2.GetVMDiskPaths, Rev2.IsRunning,
        Rev2.VerifyDiskBelongsToVM, Rev2.ResizeAndExpandDisk, Rev2.called,
        bind, Print, Eprint, ret, Exit;
      repeat lib_step;
      simpl;
      intros [= <- <-]
  end;
  simpl;
  repeat rewrite <- (assoc_L (++));
  simpl;
  repeat erewrite added_app by reflexivity.

Section SecondRevision.
Context {Lib : Type} `{Rev2.Libvirtwrap Lib}.

(** X9: the second revision makes its calls in one fixed order, each at
    most once and all about the selected image: inventory (only without
    the image flag), running state, ownership, resize. *)
Theorem calls_follow_the_plan
    (fl : Flag.t) (vmName : string) (q : Proc Lib (Rev2.LibEvent Lib)) :
  map Rev2.le_call (added q (Rev2.runDiskCommand fl vmName q).2)
  `prefix_of`
  callPlan fl vmName
    (selectedPath fl (added q (Rev2.runDiskCommand fl vmName q).2 !! 0%nat)).
Proof.
  unfold callPlan, selectedPath. lib_cases.
  all: cbn [map Rev2.le_call Rev2.le_answer lookup list_lookup app].
  all: repeat case_bool_decide; try contradiction.
  all: cbn [app]; eexists; reflexivity.
Qed.

(** X10: unlike the first revision, the second tells a failed query from
    a running VM: a failed [IsRunning] or [VerifyDiskBelongsToVM] ends the
    run with exit status 1 and its own message, which is not the message
    for a running VM, and no further call is made. *)
Theorem failed_queries_are_named
    (fl : Flag.t) (vmName : string) (q : Proc Lib (Rev2.LibEvent Lib))
    (i : nat) (e : Rev2.LibEvent Lib) (err : string) :
  added q (Rev2.runDiskCommand fl vmName q).2 !! i = Some e →
  Rev2.le_answer e = Rev2.Truth (Err err) →
  (Rev2.runDiskCommand fl vmName q).1 = Exited 1
  ∧ length (added q (Rev2.runDiskCommand fl vmName q).2) = S i
  ∧ p_stderr (Rev2.runDiskCommand fl vmName q).2
    ≠ p_stderr q +:+ vmRunningText vmName
  ∧ ((∃ vm, Rev2.le_call e = Rev2.AskRunning vm)
     ∧ p_stderr (Rev2.runDiskCommand fl vmName q).2
       = p_stderr q +:+ "Failed to check VM status: " +:+ err +:+ LF
     ∨ (∃ vm f, Rev2.le_call e = Rev2.AskOwner vm f)
       ∧ p_stderr (Rev2.runDiskCommand fl vmName q).2
         = p_stderr q +:+ "Failed to verify disk ownership: " +:+ err
           +:+ LF).
Proof.
  lib_cases; intros Hi He.
  all: positions Hi; simpl in He; try discriminate He.
  all: simplify_eq.
  all: split; [reflexivity|]; split; [reflexivity|].
  all: split; [unfold vmRunningText; texts_differ|].
  all: first [left; split; [eexists; reflexivity | reflexivity]
             | right; split; [eexists _, _; reflexivity | reflexivity]].
Qed.

(** X11: in a dry run and when no size is given the second revision makes
    no call but the inventory and the running-state queries, of which at
    least one is always made; a dry run that is not refused prints the
    selected disk and one line saying what would be resized. *)
Theorem second_revision_previews_after_checks
    (fl : Flag.t) (vmName : string) (q : Proc Lib (Rev2.LibEvent Lib)) :
  Flag.dryRun fl = true ∨ Flag.size fl = "" →
  Forall (λ e, isQuery2 (Rev2.le_call e) = true)
    (added q (Rev2.runDiskCommand fl vmName q).2)
  ∧ (0 < length (added q (Rev2.runDiskCommand fl vmName q).2))%nat
  ∧ ((Rev2.runDiskCommand fl vmName q).1 = Exited 1
     ∨ (Rev2.runDiskCommand fl vmName q).1 = Done tt
       ∧ Flag.size fl ≠ ""
       ∧ p_stderr (Rev2.runDiskCommand fl vmName q).2 = p_stderr q
       ∧ p_stdout (Rev2.runDiskCommand fl vmName q).2
         = p_stdout q
           +:+ selectedText
                 (selectedPath fl
                    (added q (Rev2.runDiskCommand fl vmName q).2 !! 0%nat))
                 (Flag.device fl)
           +:+ wouldResizeText
                 (selectedPath fl
                    (added q (Rev2.runDiskCommand fl vmName q).2 !! 0%nat))
                 (Flag.size fl) vmName).
Proof.
  intros Hor. unfold selectedPath. lib_cases.
  all: try (destruct Hor; congruence).
  all: split; [repeat constructor|]; split; [simpl; lia|].
  all: first [left; reflexivity | right].
  all: split; [reflexivity|]; split; [assumption|]; split; [reflexivity|].
  all: cbn [lookup list_lookup Rev2.le_answer].
  all: repeat case_bool_decide; try contradiction.
  all: unfold selectedText, wouldResizeText; rewrite !append_assoc;
    reflexivity.
Qed.

(** X12: the second revision's disk command ends normally or with exit
    status 1, never 0 by [os.Exit]; with exit status 1 exactly when it
    wrote to standard error; and a real run reports success only right
    after [ResizeAndExpandDisk] returned no error. *)
Theorem second_revision_exit_iff_stderr
    (fl : Flag.t) (vmName : string) (q : Proc Lib (Rev2.LibEvent Lib)) :
  ((Rev2.runDiskCommand fl vmName q).1 = Done tt
   ∨ (Rev2.runDiskCommand fl vmName q).1 = Exited 1)
  ∧ ((Rev2.runDiskCommand fl vmName q).1 = Exited 1
     ↔ p_stderr (Rev2.runDiskCommand fl vmName q).2 ≠ p_stderr q)
  ∧ ((Rev2.runDiskCommand fl vmName q).1 = Done tt →
     Flag.dryRun fl = false →
     ∃ e, last (added q (Rev2.runDiskCommand fl vmName q).2) = Some e
          ∧ isResize (Rev2.le_call e) = true
          ∧ Rev2.le_answer e = Rev2.Failure None).
Proof.
  lib_cases_quiet.
  all: split; [auto|].
  all: split; [|first [discriminate
                      | intros _ Hd; first [discriminate Hd | congruence
                          | eexists; repeat split; reflexivity]]].
  all: split; [first [discriminate | intros _; stderr_grew]|].
  all: first [done | intros Hne; by destruct Hne].
Qed.

End SecondRevision.

Ltac change_cases :=
  unfold Rev1.runCPUCommand, Rev1.runMemoryCommand, Rev1.printCommand;
  unfold_prog;
  repeat first [recall_answer | answer_step];
  simpl;
  repeat rewrite <- (assoc_L (++));
  simpl;
  repeat erewrite added_app by reflexivity.

Section Changes.
Context {World : Type} `{Host World} `{Strconv}.

(** X13: the dry runs of the cpu and memory commands print, after
    [Command:], exactly the command lines a real run starts, in the same
    order, and start nothing themselves. *)
Theorem dry_run_prints_what_would_run
    (count vmName memorySize : string) (n : Z)
    (p : Proc World (Event World)) :
  Atoi count = Ok n →
  (Rev1.runCPUCommand true count vmName p
   = (Done tt,
      {| p_world := p_world p; p_trace := p_trace p;
         p_stdout := p_stdout p
                     +:+ Join (map commandLine (cpuPlan vmName n)) "";
         p_stderr := p_stderr p; p_stdin := p_stdin p |})
   ∧ map ev_argv (added p (Rev1.changeCPUCount vmName n p).2)
     `prefix_of` cpuPlan vmName n)
  ∧ (Rev1.runMemoryCommand true memorySize vmName p
     = (Done tt,
        {| p_world := p_world p; p_trace := p_trace p;
           p_stdout := p_stdout p
                       +:+ Join (map commandLine
                                   (memoryPlan vmName memorySize)) "";
           p_stderr := p_stderr p; p_stdin := p_stdin p |})
     ∧ map ev_argv (added p (Rev1.changeMemorySize vmName memorySize p).2)
       `prefix_of` memoryPlan vmName memorySize).
Proof.
  intros Hn. repeat apply conj.
  - unfold Rev1.runCPUCommand, Rev1.printCommand. unfold_prog.
    rewrite Hn. simpl. do 2 f_equal.
    unfold cpuPlan, commandLine. cbn [map Join].
    rewrite !append_assoc, !append_nil_l. reflexivity.
  - change_cases; eexists; reflexivity.
  - unfold Rev1.runMemoryCommand, Rev1.printCommand. unfold_prog.
    simpl. do 2 f_equal.
    unfold memoryPlan, commandLine. cbn [map Join].
    rewrite !append_assoc, !append_nil_l. reflexivity.
  - change_cases; eexists; reflexivity.
Qed.

(** X14: a count that [Atoi] refuses ends the cpu command with exit status
    1 before anything is started or printed; otherwise a real run starts
    exactly the commands of [changeCPUCount] for the parsed count, and
    ends with the line of success when that returned no error and with
    exit status 1 and its error on standard error when it did. *)
Theorem cpu_command_outcome
    (dryRun : bool) (count vmName : string) (p : Proc World (Event World)) :
  (∀ err, Atoi count = Err err →
     Rev1.runCPUCommand dryRun count vmName p
     = (Exited 1,
        {| p_world := p_world p; p_trace := p_trace p;
           p_stdout := p_stdout p;
           p_stderr := p_stderr p +:+ "Invalid CPU count: " +:+ err +:+ LF;
           p_stdin := p_stdin p |}))
  ∧ (∀ n, Atoi count = Ok n → dryRun = false →
       added p (Rev1.runCPUCommand dryRun count vmName p).2
       = added p (Rev1.changeCPUCount vmName n p).2
       ∧ p_world (Rev1.runCPUCommand dryRun count vmName p).2
         = p_world (Rev1.changeCPUCount vmName n p).2
       ∧ match (Rev1.changeCPUCount vmName n p).1 with
         | Done None =>
             (Rev1.runCPUCommand dryRun count vmName p).1 = Done tt
             ∧ p_stdout (Rev1.runCPUCommand dryRun count vmName p).2
               = p_stdout p +:+ cpuChangedText n vmName
             ∧ p_stderr (Rev1.runCPUCommand dryRun count vmName p).2
               = p_stderr p
         | Done (Some err) =>
             (Rev1.runCPUCommand dryRun count vmName p).1 = Exited 1
             ∧ p_stdout (Rev1.runCPUCommand dryRun count vmName p).2
               = p_stdout p
             ∧ p_stderr (Rev1.runCPUCommand dryRun count vmName p).2
               = p_stderr p +:+ "Failed to change CPU count: " +:+ err
                 +:+ LF
         | Exited _ => False
         end).
Proof.
  split.
  - intros err Herr. unfold Rev1.runCPUCommand. unfold_prog.
    by rewrite Herr.
  - intros n Hn ->. unfold Rev1.runCPUCommand. rewrite Hn.
    change_cases; repeat split; reflexivity.
Qed.

(** X15: the memory command hands the size to [virsh] as it was typed,
    whatever it is: a real run starts exactly the commands of
    [changeMemorySize], and ends with the line of success when that
    returned no error and with exit status 1 and its error on standard
    error when it did. *)
Theorem memory_command_outcome
    (memorySize vmName : string) (p : Proc World (Event World)) :
  added p (Rev1.runMemoryCommand false memorySize vmName p).2
  = added p (Rev1.changeMemorySize vmName memorySize p).2
  ∧ (∃ mx, added p (Rev1.runMemoryCommand false memorySize vmName p).2
             !! 0%nat = Some mx
           ∧ ev_argv mx = ["sudo"; "virsh"; "setmaxmem"; vmName; memorySize;
                           "--config"])
  ∧ match (Rev1.changeMemorySize vmName memorySize p).1 with
    | Done None =>
        (Rev1.runMemoryCommand false memorySize vmName p).1 = Done tt
        ∧ p_stdout (Rev1.runMemoryCommand false memorySize vmName p).2
          = p_stdout p +:+ memoryChangedText memorySize vmName
        ∧ p_stderr (Rev1.runMemoryCommand false memorySize vmName p).2
          = p_stderr p
    | Done (Some err) =>
        (Rev1.runMemoryCommand false memorySize vmName p).1 = Exited 1
        ∧ p_stdout (Rev1.runMemoryCommand false memorySize vmName p).2
          = p_stdout p
        ∧ p_stderr (Rev1.runMemoryCommand false memorySize vmName p).2
          = p_stderr p +:+ "Failed to change memory size: " +:+ err +:+ LF
    | Exited _ => False
    end.
Proof.
  change_cases; (split; [reflexivity|]);
    (split; [eexists; split; reflexivity|]); repeat split; reflexivity.
Qed.

End Changes.

Section SecondRevisionChanges.
Context {World : Type} `{Rev2.Mutator World} `{Strconv}.

(** X16: the cpu and memory commands of the second revision make no call
    into the library in a dry run or for a count that [Atoi] refuses;
    a real run makes exactly one call, with the parsed count or the size
    as typed, and ends with exit status 1 and the error on standard error
    exactly when that call returns an error. *)
Theorem second_revision_changes
    (dryRun : bool) (count vmName memorySize : string)
    (q : Proc World (Rev2.ChangeEvent World)) :
  (∀ err, Atoi count = Err err →
     Rev2.runCPUCommand dryRun count vmName q
     = (Exited 1,
        {| p_world := p_world q; p_trace := p_trace q;
           p_stdout := p_stdout q;
           p_stderr := p_stderr q +:+ "Invalid CPU count: " +:+ err +:+ LF;
           p_stdin := p_stdin q |}))
  ∧ (∀ n, Atoi count = Ok n →
       if dryRun then
         Rev2.runCPUCommand dryRun count vmName q
         = (Done tt,
            {| p_world := p_world q; p_trace := p_trace q;
               p_stdout := p_stdout q +:+ "Would set CPU count to "
                           +:+ fmt_d n +:+ " for VM '" +:+ vmName +:+ "'"
                           +:+ LF;
               p_stderr := p_stderr q; p_stdin := p_stdin q |})
       else
         ∃ e, added q (Rev2.runCPUCommand dryRun count vmName q).2 = [e]
              ∧ Rev2.ce_call e = Rev2.SetCPUCount vmName n
              ∧ match Rev2.ce_answer e with
                | None =>
                    (Rev2.runCPUCommand dryRun count vmName q).1 = Done tt
                    ∧ p_stdout (Rev2.runCPUCommand dryRun count vmName q).2
                      = p_stdout q +:+ cpuChangedText n vmName
                    ∧ p_stderr (Rev2.runCPUCommand dryRun count vmName q).2
                      = p_stderr q
                | Some err =>
                    (Rev2.runCPUCommand dryRun count vmName q).1 = Exited 1
                    ∧ p_stdout (Rev2.runCPUCommand dryRun count vmName q).2
                      = p_stdout q
                    ∧ p_stderr (Rev2.runCPUCommand dryRun count vmName q).2
                      = p_stderr q +:+ "Failed to change CPU count: "
                        +:+ err +:+ LF
                end)
  ∧ (if dryRun then
       Rev2.runMemoryCommand dryRun memorySize vmName q
       = (Done tt,
          {| p_world := p_world q; p_trace := p_trace q;
             p_stdout := p_stdout q +:+ "Would set memory size to "
                         +:+ memorySize +:+ " for VM '" +:+ vmName +:+ "'"
                         +:+ LF;
             p_stderr := p_stderr q; p_stdin := p_stdin q |})
     else
       ∃ e, added q (Rev2.runMemoryCommand dryRun memorySize vmName q).2 = [e]
            ∧ Rev2.ce_call e = Rev2.SetMemorySize vmName memorySize
            ∧ match Rev2.ce_answer e with
              | None =>
                  (Rev2.runMemoryCommand dryRun memorySize vmName q).1
                  = Done tt
                  ∧ p_stdout
                      (Rev2.runMemoryCommand dryRun memorySize vmName q).2
                    = p_stdout q +:+ memoryChangedText memorySize vmName
                  ∧ p_stderr
                      (Rev2.runMemoryCommand dryRun memorySize vmName q).2
                    = p_stderr q
              | Some err =>
                  (Rev2.runMemoryCommand dryRun memorySize vmName q).1
                  = Exited 1
                  ∧ p_stdout
                      (Rev2.runMemoryCommand dryRun memorySize vmName q).2
                    = p_stdout q
                  ∧ p_stderr
                      (Rev2.runMemoryCommand dryRun memorySize vmName q).2
                    = p_stderr q +:+ "Failed to change memory size: "
                      +:+ err +:+ LF
              end).
Proof.
  unfold Rev2.runCPUCommand, Rev2.runMemoryCommand, Rev2.changed,
    bind, Print, Eprint, ret, Exit.
  repeat apply conj.
  - intros err ->. reflexivity.
  - intros n ->. destruct dryRun; [reflexivity|]. simpl.
    destruct (Rev2.vm_SetCPUCount vmName n (p_world q)) as [[err|] w];
      simpl; erewrite added_app by reflexivity;
      eexists; repeat split; reflexivity.
  - destruct dryRun; [reflexivity|]. simpl.
    destruct (Rev2.vm_SetMemorySize vmName memorySize (p_world q))
      as [[err|] w];
      simpl; erewrite added_app by reflexivity;
      eexists; repeat split; reflexivity.
Qed.

End SecondRevisionChanges.

(** * The further statements at work on the simulated hosts *)

Lemma web_db_plain : Forall plainName ["web"; "db"].
Proof. repeat constructor; repeat split; done. Qed.

(** On the quiet host [web] and [db] run: [vm1] is found stopped. *)
Lemma vm1_found_stopped :
  Forall plainName ["web"; "db"]
  ∧ (Rev1.isVMStopped "vm1" (boot Sim.quiet "")).1 = Done true
  ∧ (Rev1.isVMStopped "web" (boot Sim.quiet "")).1 = Done false.
Proof.
  split; [exact web_db_plain|].
  split.
  - exact (proj1 (stopped_iff_not_printed "vm1" (boot Sim.quiet "")
                    ["web"; "db"] web_db_plain eq_refl eq_refl)
             ltac:(discriminate)).
  - exact (proj1 (stopped_iff_not_printed "web" (boot Sim.quiet "")
                    ["web"; "db"] web_db_plain eq_refl eq_refl)
             ltac:(discriminate)).
Defined.

(** Without the image flag the pipeline runs on the first disk of the
    VM. *)
Lemma first_disk_is_expanded :
  let out := Rev1.runDiskCommand (withImage vm1Flags "") "vm1"
               (boot Sim.quiet ("yes" +:+ LF)) in
  ∃ e, added (boot Sim.quiet ("yes" +:+ LF)) out.2 !! 2%nat = Some e
       ∧ pipelineTool (ev_argv e) = true
       ∧ ev_argv e ∈ pipelineOn (withImage vm1Flags "") "/data/vm1.img".
Proof.
  intros out.
  destruct (added (boot Sim.quiet ("yes" +:+ LF)) out.2 !! 2%nat)
    as [e|] eqn:He; [|vm_compute in He; discriminate He].
  assert (Ht : pipelineTool (ev_argv e) = true)
    by (vm_compute in He; injection He as <-; reflexivity).
  exists e. split; [reflexivity|]. split; [exact Ht|].
  destruct (pipeline_acts_on_selected_image (withImage vm1Flags "") "vm1"
              (boot Sim.quiet ("yes" +:+ LF)) 2 e He Ht)
    as (f & Hin & _ & Hf).
  destruct (Hf eq_refl) as (d & rest & Hd & ->).
  vm_compute in Hd. injection Hd as <- _. exact Hin.
Defined.

(** A confirmed run on the quiet host reports success. *)
Lemma success_on_quiet_host :
  Flag.dryRun vm1Flags = false
  ∧ let out := Rev1.runDiskCommand vm1Flags "vm1"
                 (boot Sim.quiet ("y" +:+ LF)) in
    out.1 = Done tt
    ∧ Sim.argvs out.2
      = [["sudo"; "virsh"; "list"; "--name"; "--state-running"];
         ["sudo"; "qemu-img"; "create"; "-f"; "qcow2"; "-o";
          "preallocation=metadata"; "/data/vm1.img.new"; "40G"];
         ["sudo"; "virt-resize"; "--expand"; "/dev/vda1"; "/data/vm1.img";
          "/data/vm1.img.new"];
         ["sudo"; "mv"; "/data/vm1.img.new"; "/data/vm1.img"]]
    ∧ endsWith ("Disk expansion completed successfully." +:+ LF)
        (p_stdout out.2)
    ∧ p_stderr out.2 = "".
Proof.
  split; [reflexivity|].
  destruct (success_only_after_whole_pipeline vm1Flags "vm1"
              (boot Sim.quiet ("y" +:+ LF)) eq_refl) as [W _].
  destruct (W eq_refl)
    as (pre & c & m & v & f & _ & _ & _ & _ & _ & _ & _ & _ & _ & _ & _
        & Hout & Herr).
  split; [reflexivity|]. split; [reflexivity|].
  split; [exact Hout|exact Herr].
Defined.

(** On the failing host the artifact is deleted and the original kept. *)
Lemma rollback_on_failing_host :
  ToolContract Sim.t ∧ CleanupContract Sim.t
  ∧ let out := Rev1.resizeAndExpandDisk "/data/vm1.img" "vda" 1 "40G"
                 (boot halfway "") in
    contents (p_world out.2) "/data/vm1.img.new" = None
    ∧ contents (p_world out.2) "/data/vm1.img" = Some "vm1 root disk".
Proof.
  split; [exact sim_contract|]. split; [exact sim_cleanup|].
  intros out.
  destruct (added (boot halfway "") out.2 !! 2%nat) as [d|] eqn:Hd;
    [|vm_compute in Hd; discriminate Hd].
  assert (Ha : ev_argv d = Rev1.rmCmd ("/data/vm1.img" +:+ ".new"))
    by (vm_compute in Hd; injection Hd as <-; reflexivity).
  assert (Hr : cr_err (ev_res d) = None)
    by (vm_compute in Hd; injection Hd as <-; reflexivity).
  destruct (rollback_leaves_no_artifact sim_contract sim_cleanup
              "/data/vm1.img" "vda" 1 "40G" (boot halfway "") 2 d Hd Ha Hr)
    as (Hgone & _ & Hkept).
  split; [exact Hgone|]. exact (Hkept eq_refl).
Defined.

(** With the library down the second revision says so. *)
Lemma status_failure_is_named :
  let out := Rev2.runDiskCommand vm1Flags "vm1"
               (boot {| SimLibDown.asked := 0 |} "") in
  out.1 = Exited 1
  ∧ p_stderr out.2
    = "Failed to check VM status: connection refused" +:+ LF.
Proof.
  intros out.
  destruct (added (boot {| SimLibDown.asked := 0 |} "") out.2 !! 0%nat)
    as [e|] eqn:He; [|vm_compute in He; discriminate He].
  assert (Ha : Rev2.le_answer e = Rev2.Truth (Err "connection refused"))
    by (vm_compute in He; injection He as <-; reflexivity).
  assert (Hc : Rev2.le_call e = Rev2.AskRunning "vm1")
    by (vm_compute in He; injection He as <-; reflexivity).
  destruct (failed_queries_are_named vm1Flags "vm1"
              (boot {| SimLibDown.asked := 0 |} "") 0 e "connection refused"
              He Ha) as (Hexit & _ & _ & [[_ Herr]|[(vm & f & Hown) _]]).
  - split; [exact Hexit|exact Herr].
  - rewrite Hc in Hown. discriminate Hown.
Defined.

(** The dry run of the second revision on the quiet library. *)
Lemma second_revision_dry_run :
  (Flag.dryRun (withDryRun vm1Flags) = true
   ∨ Flag.size (withDryRun vm1Flags) = "")
  ∧ let out := Rev2.runDiskCommand (withDryRun vm1Flags) "vm1"
                 (boot SimLib.quiet "") in
    SimLib.calls out.2 = [Rev2.AskRunning "vm1"]
    ∧ p_stdout out.2
      = "Selected disk: /data/vm1.img (device: vda)" +:+ LF
        +:+ "Would resize disk /data/vm1.img to 40G for VM 'vm1'" +:+ LF.
Proof.
  split; [by left|].
  destruct (second_revision_previews_after_checks (withDryRun vm1Flags)
              "vm1" (boot SimLib.quiet "") (or_introl eq_refl))
    as (_ & _ & [Hexit | (_ & _ & _ & Hout)]).
  - vm_compute in Hexit. discriminate Hexit.
  - split; [reflexivity|]. rewrite Hout. reflexivity.
Defined.

(** The dry run of [kvm-vm-tune cpu 4 vm1]. *)
Lemma cpu_dry_run_on_quiet_host :
  Atoi "4" = Ok 4
  ∧ p_stdout (Rev1.runCPUCommand true "4" "vm1" (boot Sim.quiet "")).2
    = "Command: sudo virsh setvcpus vm1 4 --config --maximum" +:+ LF
      +:+ "Command: sudo virsh setvcpus vm1 4 --config" +:+ LF
  ∧ Sim.argvs (Rev1.changeCPUCount "vm1" 4 (boot Sim.quiet "")).2
    = cpuPlan "vm1" 4.
Proof.
  assert (H4 : Atoi "4" = Ok 4) by reflexivity.
  split; [exact H4|].
  destruct (dry_run_prints_what_would_run "4" "vm1" "8G" 4
              (boot Sim.quiet "") H4) as [[Hrun _] _].
  split; [by rewrite Hrun | reflexivity].
Defined.
